(** * Depth-Anything (iw3 fork): the DPT decoder head and its DINOv2 wrapper

    A shallow embedding of [depth_anything/dpt.py].  Tensors carry their
    shape and their entries; every operator of the tensor runtime that the
    file calls is written out with the shape arithmetic of the runtime and
    with the exception it raises on a shape it rejects.  Entries are exact
    rationals; where rounding of the floating-point runtime decides a
    property, the operation is given a second time on IEEE 754 floats. *)

From Stdlib Require Import List Arith Bool Lia Lqa String QArith Qabs Qround ZArith DecimalString.
From Stdlib Require SpecFloat.
Import ListNotations.

Local Open Scope nat_scope.

(** ** Exceptions and results *)

Inductive error : Type :=
| AttributeError
| IndexError
| ValueError
| RuntimeError
| AssertionError
| KeyError.

Inductive result (A : Type) : Type :=
| Ok (a : A)
| Err (e : error).

Arguments Ok {A} a.
Arguments Err {A} e.

Definition bind {A B : Type} (r : result A) (f : A -> result B) : result B :=
  match r with
  | Ok a => f a
  | Err e => Err e
  end.

Declare Scope result_scope.
Delimit Scope result_scope with result.
Notation "x <- r ;; k" := (bind r (fun x => k))
  (at level 61, r at next level, right associativity) : result_scope.
Notation "' p <- r ;; k" := (bind r (fun v => let p := v in k))
  (at level 61, p pattern, r at next level, right associativity) : result_scope.
Local Open Scope result_scope.

(** Python's [xs[i]] on a list. *)
Definition getitem {A : Type} (xs : list A) (i : nat) : result A :=
  match nth_error xs i with
  | Some a => Ok a
  | None => Err IndexError
  end.

(** Python's attribute lookup on an attribute that [__init__] may not have set. *)
Definition getattr {A : Type} (a : option A) : result A :=
  match a with
  | Some v => Ok v
  | None => Err AttributeError
  end.

(** ** Tensors *)

(** A tensor has a shape and one rational entry per multi-index.  Only the
    entries at indices inside the shape are meaningful. *)
Record Tensor : Type := mkTensor {
  shape : list nat;
  data : list nat -> Q
}.

Definition numel (s : list nat) : nat := fold_right Nat.mul 1 s.

(** Row-major position of a multi-index, and the multi-index of a position. *)
Definition ravel (s idx : list nat) : nat :=
  fold_left (fun acc di => acc * fst di + snd di) (combine s idx) 0.

Fixpoint unravel_rev (rs : list nat) (n : nat) : list nat :=
  match rs with
  | [] => []
  | d :: rs' => unravel_rev rs' (n / d) ++ [n mod d]
  end.

Definition unravel (s : list nat) (n : nat) : list nat := unravel_rev (rev s) n.

Definition sumQ (n : nat) (f : nat -> Q) : Q :=
  fold_right (fun i acc => (f i + acc)%Q) 0%Q (seq 0 n).

Definition map_data (f : Q -> Q) (t : Tensor) : Tensor :=
  {| shape := shape t; data := fun idx => f (data t idx) |}.

Definition Qrelu (x : Q) : Q := if Qle_bool 0 x then x else 0%Q.

(** [Tensor.reshape]: same entries in row-major order, new shape. *)
Definition reshape (t : Tensor) (s : list nat) : result Tensor :=
  if numel (shape t) =? numel s
  then Ok {| shape := s; data := fun idx => data t (unravel (shape t) (ravel s idx)) |}
  else Err RuntimeError.

(** [Tensor.permute(0, 2, 1)]. *)
Definition permute_0_2_1 (t : Tensor) : result Tensor :=
  match shape t with
  | [b; n; c] =>
      Ok {| shape := [b; c; n];
            data := fun idx =>
              match idx with
              | [i; j; k] => data t [i; k; j]
              | _ => 0%Q
              end |}
  | _ => Err RuntimeError
  end.

(** [Tensor.unsqueeze(1)]. *)
Definition unsqueeze_1 (t : Tensor) : result Tensor :=
  match shape t with
  | [] => Err IndexError
  | b :: rest =>
      Ok {| shape := b :: 1 :: rest;
            data := fun idx =>
              match idx with
              | i :: _ :: r => data t (i :: r)
              | _ => 0%Q
              end |}
  end.

(** Broadcasting of one dimension: a singleton dimension is repeated. *)
Fixpoint expandable (src dst : list nat) : bool :=
  match src, dst with
  | [], [] => true
  | a :: src', b :: dst' => ((a =? b) || (a =? 1)) && expandable src' dst'
  | _, _ => false
  end.

Fixpoint expand_index (src idx : list nat) : list nat :=
  match src, idx with
  | a :: src', i :: idx' => (if a =? 1 then 0 else i) :: expand_index src' idx'
  | _, _ => []
  end.

(** [Tensor.expand_as(other)], for tensors of equal rank, as the source uses it. *)
Definition expand_as (t other : Tensor) : result Tensor :=
  if expandable (shape t) (shape other)
  then Ok {| shape := shape other;
             data := fun idx => data t (expand_index (shape t) idx) |}
  else Err RuntimeError.

(** [torch.cat((a, b), -1)]. *)
Definition cat_last (a b : Tensor) : result Tensor :=
  match rev (shape a), rev (shape b) with
  | ca :: ra, cb :: rb =>
      if list_eq_dec Nat.eq_dec ra rb
      then Ok {| shape := rev ra ++ [ca + cb];
                 data := fun idx =>
                   let i := last idx 0 in
                   if i <? ca then data a idx
                   else data b (removelast idx ++ [i - ca]) |}
      else Err RuntimeError
  | _, _ => Err RuntimeError
  end.

(** [Tensor.squeeze(1)]. *)
Definition squeeze_1 (t : Tensor) : result Tensor :=
  match shape t with
  | b :: c :: rest =>
      if c =? 1
      then Ok {| shape := b :: rest;
                 data := fun idx =>
                   match idx with
                   | i :: r => data t (i :: 0 :: r)
                   | [] => 0%Q
                   end |}
      else Ok t
  | _ => Err IndexError
  end.

(** Elementwise sum of two tensors of the same shape. *)
Definition tensor_add (a b : Tensor) : result Tensor :=
  if list_eq_dec Nat.eq_dec (shape a) (shape b)
  then Ok {| shape := shape a; data := fun idx => (data a idx + data b idx)%Q |}
  else Err RuntimeError.

(** [tensor * scalar], each product taken exactly. *)
Definition tensor_mul_scalar (t : Tensor) (k : Q) : Tensor :=
  map_data (fun v => (v * k)%Q) t.



(** [F.relu]. *)
Definition F_relu (t : Tensor) : Tensor := map_data Qrelu t.

(** ** Bilinear interpolation with aligned corners *)

(** Source coordinate of output position [o]: the corners of the two grids
    coincide, so the step is [(n_in - 1) / (n_out - 1)]. *)
Definition src_coord (n_in n_out o : nat) : Q :=
  if n_out <=? 1 then 0%Q
  else (inject_Z (Z.of_nat o) * inject_Z (Z.of_nat (n_in - 1))
        / inject_Z (Z.of_nat (n_out - 1)))%Q.

Definition lower_index (n_in : nat) (c : Q) : nat :=
  Nat.min (Z.to_nat (Qfloor c)) (n_in - 1).

Definition upper_index (n_in : nat) (c : Q) : nat :=
  Nat.min (S (lower_index n_in c)) (n_in - 1).

Definition frac (n_in : nat) (c : Q) : Q :=
  (c - inject_Z (Z.of_nat (lower_index n_in c)))%Q.

(** [F.interpolate(t, size, mode="bilinear", align_corners=True)]; [size]
    is the tuple the caller passes, two entries for a 4-D map. *)
Definition F_interpolate (t : Tensor) (size : list nat) : result Tensor :=
  match size, shape t with
  | [ho; wo], [b; c; h; w] =>
      if (h =? 0) || (w =? 0) || (ho =? 0) || (wo =? 0) then Err RuntimeError
      else Ok {| shape := [b; c; ho; wo];
                 data := fun idx =>
                   match idx with
                   | [n; k; i; j] =>
                       let y := src_coord h ho i in
                       let x := src_coord w wo j in
                       let y0 := lower_index h y in
                       let y1 := upper_index h y in
                       let x0 := lower_index w x in
                       let x1 := upper_index w x in
                       let ly := frac h y in
                       let lx := frac w x in
                       ((1 - ly) * ((1 - lx) * data t [n; k; y0; x0]
                                    + lx * data t [n; k; y0; x1])
                        + ly * ((1 - lx) * data t [n; k; y1; x0]
                                + lx * data t [n; k; y1; x1]))%Q
                   | _ => 0%Q
                   end |}
  | _, _ => Err ValueError
  end.

(** ** The layers of [torch.nn] that the decoder is built from *)

(** Learned parameters, as a checkpoint names them: key to entries. *)
Definition StateDict : Type := string -> list nat -> Q.

Definition scope (prefix : string) (sd : StateDict) : StateDict :=
  fun key => sd (prefix ++ key)%string.

Definition index_name (i : nat) : string :=
  NilEmpty.string_of_uint (Nat.to_uint i).

Inductive Module : Type :=
| Conv2d (in_channels out_channels kernel_size stride padding : nat)
         (weight bias : list nat -> Q)
| ConvTranspose2d (in_channels out_channels kernel_size stride padding : nat)
                  (weight bias : list nat -> Q)
| Linear (in_features out_features : nat) (weight bias : list nat -> Q)
| Identity
| ReLU (inplace : bool)
| Sigmoid
| GELU
| Sequential (layers : list Module).

(** Output length of a convolution along one axis (dilation 1). *)
Definition conv2d_out (n k s p : nat) : nat := (n + 2 * p - k) / s + 1.

(** Output length of a transposed convolution along one axis
    (dilation 1, no output padding). *)
Definition conv_transpose2d_out (n k s p : nat) : nat := (n - 1) * s + k - 2 * p.

(** Entry of a zero-padded map: position [(y, x)] of the padded grid. *)
Definition padded (t : Tensor) (p h w n c y x : nat) : Q :=
  if (p <=? y) && (y - p <? h) && (p <=? x) && (x - p <? w)
  then data t [n; c; y - p; x - p]
  else 0%Q.

(** [nn.Conv2d] on a batched map (groups 1, dilation 1); the weight is
    indexed [(out, in, ky, kx)].  The decoder only passes 4-D maps. *)
Definition conv2d (cin cout k s p : nat) (wt bs : list nat -> Q) (t : Tensor)
  : result Tensor :=
  match shape t with
  | [b; c; h; w] =>
      if negb (c =? cin) || (s =? 0) || (h + 2 * p <? k) || (w + 2 * p <? k)
      then Err RuntimeError
      else Ok {| shape := [b; cout; conv2d_out h k s p; conv2d_out w k s p];
                 data := fun idx =>
                   match idx with
                   | [n; co; i; j] =>
                       (bs [co]
                        + sumQ cin (fun ci => sumQ k (fun ki => sumQ k (fun kj =>
                            wt [co; ci; ki; kj]
                            * padded t p h w n ci (i * s + ki) (j * s + kj)))))%Q
                   | _ => 0%Q
                   end |}
  | _ => Err RuntimeError
  end.

(** Contribution of kernel row [ki] to output row [y]: the input row that
    the stride maps there, when there is one. *)
Definition transposed_source (n s p y ki : nat) : option nat :=
  if (ki <=? y + p) && ((y + p - ki) mod s =? 0) && ((y + p - ki) / s <? n)
  then Some ((y + p - ki) / s)
  else None.

(** [nn.ConvTranspose2d] on a batched map (groups 1, dilation 1, no output
    padding); the weight is indexed [(in, out, ky, kx)]. *)
Definition conv_transpose2d (cin cout k s p : nat) (wt bs : list nat -> Q)
  (t : Tensor) : result Tensor :=
  match shape t with
  | [b; c; h; w] =>
      if negb (c =? cin) || (s =? 0) || (h =? 0) || (w =? 0)
         || ((h - 1) * s + k <=? 2 * p) || ((w - 1) * s + k <=? 2 * p)
      then Err RuntimeError
      else Ok {| shape := [b; cout; conv_transpose2d_out h k s p;
                           conv_transpose2d_out w k s p];
                 data := fun idx =>
                   match idx with
                   | [n; co; y; x] =>
                       (bs [co]
                        + sumQ cin (fun ci => sumQ k (fun ki => sumQ k (fun kj =>
                            match transposed_source h s p y ki,
                                  transposed_source w s p x kj with
                            | Some i, Some j => wt [ci; co; ki; kj] * data t [n; ci; i; j]
                            | _, _ => 0
                            end))))%Q
                   | _ => 0%Q
                   end |}
  | _ => Err RuntimeError
  end.

(** [nn.Linear] on the last axis; the weight is indexed [(out, in)]. *)
Definition linear (fin fout : nat) (wt bs : list nat -> Q) (t : Tensor)
  : result Tensor :=
  match rev (shape t) with
  | c :: lead =>
      if c =? fin
      then Ok {| shape := rev lead ++ [fout];
                 data := fun idx =>
                   let o := last idx 0 in
                   (bs [o]
                    + sumQ fin (fun i => wt [o; i] * data t (removelast idx ++ [i])))%Q |}
      else Err RuntimeError
  | [] => Err RuntimeError
  end.

(** The two transcendental activations of the runtime. *)
Class Activations : Type := {
  sigmoid : Q -> Q;
  gelu : Q -> Q
}.

Section Forward.

Context {act : Activations}.

Fixpoint Module_forward (m : Module) (x : Tensor) {struct m} : result Tensor :=
  match m with
  | Conv2d cin cout k s p wt bs => conv2d cin cout k s p wt bs x
  | ConvTranspose2d cin cout k s p wt bs => conv_transpose2d cin cout k s p wt bs x
  | Linear fin fout wt bs => linear fin fout wt bs x
  | Identity => Ok x
  | ReLU _ => Ok (map_data Qrelu x)
  | Sigmoid => Ok (map_data sigmoid x)
  | GELU => Ok (map_data gelu x)
  | Sequential layers =>
      (fix run (ms : list Module) (y : Tensor) {struct ms} : result Tensor :=
         match ms with
         | [] => Ok y
         | m' :: ms' => z <- Module_forward m' y ;; run ms' z
         end) layers x
  end.

End Forward.

(** Constructors that read their parameters from a checkpoint. *)
Definition nn_Conv2d (sd : StateDict) (cin cout k s p : nat) : Module :=
  Conv2d cin cout k s p (sd "weight"%string) (sd "bias"%string).

Definition nn_ConvTranspose2d (sd : StateDict) (cin cout k s p : nat) : Module :=
  ConvTranspose2d cin cout k s p (sd "weight"%string) (sd "bias"%string).

Definition nn_Linear (sd : StateDict) (fin fout : nat) : Module :=
  Linear fin fout (sd "weight"%string) (sd "bias"%string).

Fixpoint mapi_from {A B : Type} (f : nat -> A -> B) (i : nat) (xs : list A) : list B :=
  match xs with
  | [] => []
  | x :: xs' => f i x :: mapi_from f (S i) xs'
  end.

(** ** [blocks.py]: the fusion block and the scratch reduction *)

(** Modelled from the spec: [FeatureFusionBlock] lives in [blocks.py], which
    is not among the sources.  The fields are the arguments that
    [_make_fusion_block] passes; [res_conv] is the learned residual
    convolution of the spec (3x3, channel- and size-preserving). *)
Record FeatureFusionBlock : Type := {
  ffb_features : nat;
  ffb_activation : Module;
  ffb_deconv : bool;
  ffb_bn : bool;
  ffb_expand : bool;
  ffb_align_corners : bool;
  ffb_size : option (list nat);
  ffb_res_conv : Module
}.

Definition new_FeatureFusionBlock (sd : StateDict) (features : nat)
  (activation : Module) (deconv bn expand align_corners : bool)
  (size : option (list nat)) : FeatureFusionBlock :=
  {| ffb_features := features;
     ffb_activation := activation;
     ffb_deconv := deconv;
     ffb_bn := bn;
     ffb_expand := expand;
     ffb_align_corners := align_corners;
     ffb_size := size;
     ffb_res_conv := nn_Conv2d (scope "res_conv." sd) features features 3 1 1 |}.

(** Modelled from the spec: the scratch container of [blocks.py]; its
    attributes are set by [_make_scratch] and then by [DPTHead.__init__], so
    each one may be absent. *)
Record Scratch : Type := {
  layer1_rn : option Module;
  layer2_rn : option Module;
  layer3_rn : option Module;
  layer4_rn : option Module;
  stem_transpose : option Module;
  refinenet1 : option FeatureFusionBlock;
  refinenet2 : option FeatureFusionBlock;
  refinenet3 : option FeatureFusionBlock;
  refinenet4 : option FeatureFusionBlock;
  output_conv : option Module;
  output_conv1 : option Module;
  output_conv2 : option Module
}.

(** Modelled from the spec: [_make_scratch] of [blocks.py] builds, per input
    layer, the dedicated 3x3 convolution that reduces the layer to the common
    fusion width and keeps its spatial size. *)
Definition _make_scratch (sd : StateDict) (in_shape : list nat) (out_shape : nat)
  (groups : nat) (expand : bool) : result Scratch :=
  c0 <- getitem in_shape 0 ;;
  c1 <- getitem in_shape 1 ;;
  c2 <- getitem in_shape 2 ;;
  c3 <- getitem in_shape 3 ;;
  Ok {| layer1_rn := Some (nn_Conv2d (scope "layer1_rn." sd) c0 out_shape 3 1 1);
        layer2_rn := Some (nn_Conv2d (scope "layer2_rn." sd) c1 out_shape 3 1 1);
        layer3_rn := Some (nn_Conv2d (scope "layer3_rn." sd) c2 out_shape 3 1 1);
        layer4_rn := Some (nn_Conv2d (scope "layer4_rn." sd) c3 out_shape 3 1 1);
        stem_transpose := None;
        refinenet1 := None;
        refinenet2 := None;
        refinenet3 := None;
        refinenet4 := None;
        output_conv := None;
        output_conv1 := None;
        output_conv2 := None |}.

Section Blocks.

Context {act : Activations}.

(** Modelled from the spec: a learned residual convolution, the input plus
    the convolution of its activation. *)
Definition residual_conv (blk : FeatureFusionBlock) (x : Tensor) : result Tensor :=
  a <- Module_forward (ffb_activation blk) x ;;
  c <- Module_forward (ffb_res_conv blk) a ;;
  tensor_add x c.

(** Modelled from the spec: the forward pass of the fusion block of
    [blocks.py]: residual convolution of the auxiliary input when there is
    one, elementwise combination with the accumulator, then upsampling to the
    requested target size; without a requested size the block's own size is
    used, and without either there is no further resize. *)
Definition FeatureFusionBlock_forward (blk : FeatureFusionBlock)
  (xs : list Tensor) (size : option (list nat)) : result Tensor :=
  match xs with
  | [] => Err IndexError
  | output :: rest =>
      fused <- match rest with
               | [] => Ok output
               | aux :: _ => res <- residual_conv blk aux ;; tensor_add output res
               end ;;
      match size, ffb_size blk with
      | Some sz, _ => F_interpolate fused sz
      | None, Some sz => F_interpolate fused sz
      | None, None => Ok fused
      end
  end.

End Blocks.

(** ** [dpt.py] *)

Definition _make_fusion_block (sd : StateDict) (features : nat) (use_bn : bool)
  (size : option (list nat)) : FeatureFusionBlock :=
  new_FeatureFusionBlock sd features (ReLU false) false use_bn false true size.

(** One feature entry of the backbone: patch tokens and class token. *)
Definition Feature : Type := (Tensor * Tensor)%type.

Record DPTHead : Type := {
  nclass : nat;
  use_clstoken : bool;
  projects : list Module;
  resize_layers : list Module;
  readout_projects : option (list Module);
  scratch : Scratch
}.

(** [DPTHead.__init__].  The defaults of the source are [features=256],
    [use_bn=False], [out_channels=[256, 512, 1024, 1024]],
    [use_clstoken=False], [metric_depth=False]. *)
Definition DPTHead_init (sd : StateDict) (nclass in_channels features : nat)
  (use_bn : bool) (out_channels : list nat) (use_clstoken metric_depth : bool)
  : result DPTHead :=
  let projects :=
    mapi_from (fun i out_channel =>
      nn_Conv2d (scope ("projects." ++ index_name i ++ ".") sd)
                in_channels out_channel 1 1 0) 0 out_channels in
  oc0 <- getitem out_channels 0 ;;
  oc1 <- getitem out_channels 1 ;;
  oc3 <- getitem out_channels 3 ;;
  let resize_layers :=
    [ nn_ConvTranspose2d (scope "resize_layers.0." sd) oc0 oc0 4 4 0;
      nn_ConvTranspose2d (scope "resize_layers.1." sd) oc1 oc1 2 2 0;
      Identity;
      nn_Conv2d (scope "resize_layers.3." sd) oc3 oc3 3 2 1 ] in
  let readout_projects :=
    if use_clstoken
    then Some (map (fun i =>
           Sequential
             [ nn_Linear (scope ("readout_projects." ++ index_name i ++ ".0.") sd)
                         (2 * in_channels) in_channels;
               GELU ]) (seq 0 (List.length projects)))
    else None in
  s <- _make_scratch (scope "scratch." sd) out_channels features 1 false ;;
  let head_features_1 := features in
  let head_features_2 := 32 in
  let oc :=
    if 1 <? nclass
    then Some (Sequential
           [ nn_Conv2d (scope "scratch.output_conv.0." sd)
                       head_features_1 head_features_1 3 1 1;
             ReLU true;
             nn_Conv2d (scope "scratch.output_conv.2." sd)
                       head_features_1 nclass 1 1 0 ])
    else None in
  let oc1 :=
    if 1 <? nclass then None
    else Some (nn_Conv2d (scope "scratch.output_conv1." sd)
                 head_features_1 (head_features_1 / 2) 3 1 1) in
  let act_func := if metric_depth then Sigmoid else ReLU true in
  let oc2 :=
    if 1 <? nclass then None
    else Some (Sequential
           [ nn_Conv2d (scope "scratch.output_conv2.0." sd)
                       (head_features_1 / 2) head_features_2 3 1 1;
             ReLU true;
             nn_Conv2d (scope "scratch.output_conv2.2." sd) head_features_2 1 1 1 0;
             act_func;
             Identity ]) in
  Ok {| nclass := nclass;
        use_clstoken := use_clstoken;
        projects := projects;
        resize_layers := resize_layers;
        readout_projects := readout_projects;
        scratch :=
          {| layer1_rn := layer1_rn s;
             layer2_rn := layer2_rn s;
             layer3_rn := layer3_rn s;
             layer4_rn := layer4_rn s;
             stem_transpose := None;
             refinenet1 :=
               Some (_make_fusion_block (scope "scratch.refinenet1." sd) features use_bn None);
             refinenet2 :=
               Some (_make_fusion_block (scope "scratch.refinenet2." sd) features use_bn None);
             refinenet3 :=
               Some (_make_fusion_block (scope "scratch.refinenet3." sd) features use_bn None);
             refinenet4 :=
               Some (_make_fusion_block (scope "scratch.refinenet4." sd) features use_bn None);
             output_conv := oc;
             output_conv1 := oc1;
             output_conv2 := oc2 |} |}.

Section Decoder.

Context {act : Activations}.

(** Body of the loop of [DPTHead.forward] for entry [i].  The branch on the
    device type only changes the memory layout, which tensors here do not
    have. *)
Definition DPTHead_layer (self : DPTHead) (patch_h patch_w i : nat) (x : Feature)
  : result Tensor :=
  x <- (if use_clstoken self
        then
          let '(x, cls_token) := x in
          u <- unsqueeze_1 cls_token ;;
          readout <- expand_as u x ;;
          rps <- getattr (readout_projects self) ;;
          rp <- getitem rps i ;;
          c <- cat_last x readout ;;
          Module_forward rp c
        else Ok (fst x)) ;;
  p <- permute_0_2_1 x ;;
  b <- getitem (shape x) 0 ;;
  c <- getitem (rev (shape x)) 0 ;;
  x <- reshape p [b; c; patch_h; patch_w] ;;
  proj <- getitem (projects self) i ;;
  x <- Module_forward proj x ;;
  rl <- getitem (resize_layers self) i ;;
  Module_forward rl x.

Fixpoint DPTHead_layers (self : DPTHead) (patch_h patch_w i : nat)
  (out_features : list Feature) : result (list Tensor) :=
  match out_features with
  | [] => Ok []
  | x :: rest =>
      y <- DPTHead_layer self patch_h patch_w i x ;;
      ys <- DPTHead_layers self patch_h patch_w (S i) rest ;;
      Ok (y :: ys)
  end.

(** [t.shape[2:]]. *)
Definition spatial (t : Tensor) : list nat := skipn 2 (shape t).

(** The call of a submodule held in an attribute. *)
Definition call (m : option Module) (x : Tensor) : result Tensor :=
  f <- getattr m ;; Module_forward f x.

Definition fuse (blk : option FeatureFusionBlock) (xs : list Tensor)
  (size : option (list nat)) : result Tensor :=
  f <- getattr blk ;; FeatureFusionBlock_forward f xs size.

(** The top-down fusion chain of [DPTHead.forward]. *)
Definition DPTHead_fusion (s : Scratch)
  (layer_1_rn layer_2_rn layer_3_rn layer_4_rn : Tensor) : result Tensor :=
  path_4 <- fuse (refinenet4 s) [layer_4_rn] (Some (spatial layer_3_rn)) ;;
  path_3 <- fuse (refinenet3 s) [path_4; layer_3_rn] (Some (spatial layer_2_rn)) ;;
  path_2 <- fuse (refinenet2 s) [path_3; layer_2_rn] (Some (spatial layer_1_rn)) ;;
  fuse (refinenet1 s) [path_2; layer_1_rn] None.

(** The output head of [DPTHead.forward]: the last three statements. *)
Definition DPTHead_output (s : Scratch) (path_1 : Tensor) (patch_h patch_w : nat)
  : result Tensor :=
  out <- call (output_conv1 s) path_1 ;;
  out <- F_interpolate out [patch_h * 14; patch_w * 14] ;;
  call (output_conv2 s) out.

(** [DPTHead.forward]. *)
Definition DPTHead_forward (self : DPTHead) (out_features : list Feature)
  (patch_h patch_w : nat) : result Tensor :=
  out <- DPTHead_layers self patch_h patch_w 0 out_features ;;
  match out with
  | [layer_1; layer_2; layer_3; layer_4] =>
      let s := scratch self in
      layer_1_rn <- call (layer1_rn s) layer_1 ;;
      layer_2_rn <- call (layer2_rn s) layer_2 ;;
      layer_3_rn <- call (layer3_rn s) layer_3 ;;
      layer_4_rn <- call (layer4_rn s) layer_4 ;;
      path_1 <- DPTHead_fusion s layer_1_rn layer_2_rn layer_3_rn layer_4_rn ;;
      DPTHead_output s path_1 patch_h patch_w
  | _ => Err ValueError
  end.

(** The activation that ends the depth head: [act_func] of
    [DPTHead.__init__], on one entry. *)
Definition final_activation (metric : bool) : Q -> Q :=
  if metric then sigmoid else Qrelu.

End Decoder.

(** Which intermediate layers the backbone returns: the last [n] layers,
    or the layers at the given indices. *)
Inductive LayerSelection : Type :=
| LastLayers (n : nat)
| LayerIndices (idx : list nat).

Definition _SETTINGS : list (string * (nat * list nat * LayerSelection)) :=
  [ ("v2_vits", (64, [48; 96; 192; 384], LayerIndices [2; 5; 8; 11]));
    ("vits", (64, [48; 96; 192; 384], LastLayers 4));
    ("v2_vitb", (128, [96; 192; 384; 768], LayerIndices [2; 5; 8; 11]));
    ("vitb", (128, [96; 192; 384; 768], LastLayers 4));
    ("v2_vitl", (256, [256; 512; 1024; 1024], LayerIndices [4; 11; 17; 23]));
    ("vitl", (256, [256; 512; 1024; 1024], LastLayers 4)) ]%string.

Fixpoint dict_get {V : Type} (d : list (string * V)) (k : string) : result V :=
  match d with
  | [] => Err KeyError
  | (k', v) :: d' => if String.eqb k k' then Ok v else dict_get d' k
  end.

(** The DINOv2 backbone, an external collaborator: its embedding width and
    [get_intermediate_layers(x, n, return_class_token=True)]. *)
Record Backbone : Type := {
  embed_dim : nat;
  get_intermediate_layers : Tensor -> LayerSelection -> result (list Feature)
}.

Record DPT_DINOv2 : Type := {
  intermediate_layer_idx : LayerSelection;
  metric_depth : bool;
  max_depth : Q;
  encoder : string;
  pretrained : Backbone;
  depth_head : DPTHead
}.

(** [DPT_DINOv2.__init__].  [torch_hub_load] stands for [torch.hub.load]
    (repository or directory, then entry point) and [sd] for the parameters
    of the decoder.  The defaults of the source are [encoder='vitl'],
    [use_bn=False], [use_clstoken=False], [localhub=True],
    [metric_depth=False], [max_depth=20.0]. *)
Definition DPT_DINOv2_init (torch_hub_load : string -> string -> Backbone)
  (sd : StateDict) (encoder : string)
  (use_bn use_clstoken localhub metric_depth : bool) (max_depth : Q)
  : result DPT_DINOv2 :=
  if negb (existsb (String.eqb encoder)
             ["vits"; "vitb"; "vitl"; "v2_vits"; "v2_vitb"; "v2_vitl"]%string)
  then Err AssertionError
  else
    '(features, out_channels, idx) <- dict_get _SETTINGS encoder ;;
    let dino_encoder :=
      if String.prefix "v2_" encoder
      then String.substring 3 (String.length encoder - 3) encoder
      else encoder in
    let entry := ("dinov2_" ++ dino_encoder ++ "14")%string in
    let pretrained :=
      if localhub
      then torch_hub_load "../torchhub/facebookresearch_dinov2_main"%string entry
      else torch_hub_load "facebookresearch/dinov2"%string entry in
    head <- DPTHead_init (scope "depth_head." sd) 1 (embed_dim pretrained) features
              use_bn out_channels use_clstoken metric_depth ;;
    Ok {| intermediate_layer_idx := idx;
          metric_depth := metric_depth;
          max_depth := max_depth;
          encoder := encoder;
          pretrained := pretrained;
          depth_head := head |}.

(** [h, w = x.shape[-2:]]. *)
Definition last_two (s : list nat) : result (nat * nat) :=
  match rev s with
  | w :: h :: _ => Ok (h, w)
  | _ => Err ValueError
  end.

(** The backbone as the runtime holds it: a call reads and may change
    hidden state of type [W] (a random number generator, buffers, the
    training mode) and answers from it. *)
Definition StatefulBackbone (W : Type) : Type :=
  W -> Tensor -> LayerSelection -> result (list Feature) * W.

(** The model in which the call of the backbone gives [answer]. *)
Definition answering (self : DPT_DINOv2) (answer : result (list Feature))
  : DPT_DINOv2 :=
  {| intermediate_layer_idx := intermediate_layer_idx self;
     metric_depth := metric_depth self;
     max_depth := max_depth self;
     encoder := encoder self;
     pretrained := {| embed_dim := embed_dim (pretrained self);
                      get_intermediate_layers := fun _ _ => answer |};
     depth_head := depth_head self |}.

Section Wrapper.

Context {act : Activations}.

(** The end of [DPT_DINOv2.forward]: scaling or rectification, then the
    removal of the channel axis. *)
Definition DPT_DINOv2_postprocess (self : DPT_DINOv2) (depth : Tensor)
  : result Tensor :=
  let depth :=
    if metric_depth self
    then tensor_mul_scalar depth (max_depth self)
    else F_relu depth in
  squeeze_1 depth.

(** [DPT_DINOv2.forward]. *)
Definition DPT_DINOv2_forward (self : DPT_DINOv2) (x : Tensor) : result Tensor :=
  '(h, w) <- last_two (shape x) ;;
  features <- get_intermediate_layers (pretrained self) x
                (intermediate_layer_idx self) ;;
  let patch_h := h / 14 in
  let patch_w := w / 14 in
  depth <- DPTHead_forward (depth_head self) features patch_h patch_w ;;
  d2 <- getitem (shape depth) 2 ;;
  differs <- (if negb (h =? d2) then Ok true
              else d3 <- getitem (shape depth) 3 ;; Ok (negb (w =? d3))) ;;
  depth <- (if differs : bool then F_interpolate depth [h; w] else Ok depth) ;;
  DPT_DINOv2_postprocess self depth.

(** One invocation of [DPT_DINOv2.forward] with the hidden state of the
    runtime passed along: the result, and the hidden state after the call.
    The unpacking of the shape comes first and raises before the backbone is
    called; the call of [self.pretrained.get_intermediate_layers] is the one
    statement that is handed the hidden state; the decoder, the resize, the
    scaling and the squeeze then run on the answer. *)
Definition DPT_DINOv2_invoke {W : Type} (backbone : StatefulBackbone W)
  (self : DPT_DINOv2) (w : W) (x : Tensor) : result Tensor * W :=
  match last_two (shape x) with
  | Err e => (Err e, w)
  | Ok _ =>
      let (answer, w') := backbone w x (intermediate_layer_idx self) in
      (DPT_DINOv2_forward (answering self answer) x, w')
  end.

End Wrapper.

(** ** A concrete model, to run the definitions on *)

(** A rational function with the range and the monotonicity of the logistic
    function. *)
Definition rational_sigmoid (x : Q) : Q := ((1 + x / (1 + Qabs x)) / 2)%Q.

Definition rational_activations : Activations :=
  {| sigmoid := rational_sigmoid;
     gelu := fun x => (x * rational_sigmoid x)%Q |}.

(** Parameters that depend on the key and on the position. *)
Definition example_state_dict : StateDict :=
  fun key idx =>
    (inject_Z (Z.of_nat (String.length key + fold_right Nat.add 0%nat idx)%nat) / 100 - (1 # 4))%Q.

Definition constant_tensor (s : list nat) (v : Q) : Tensor :=
  {| shape := s; data := fun _ => v |}.

Definition selection_count (sel : LayerSelection) : nat :=
  match sel with
  | LastLayers n => n
  | LayerIndices idx => List.length idx
  end.

(** A stand-in backbone with patch size 14: per selected layer, the patch
    tokens repeat the first channel of the top-left pixel of each patch and
    the class token is constant.  It rejects inputs that are not 3-channel
    batches with height and width divisible by 14. *)
Definition example_backbone (dim : nat) : Backbone :=
  {| embed_dim := dim;
     get_intermediate_layers := fun x sel =>
       match shape x with
       | [b; c; h; w] =>
           if (c =? 3) && (h mod 14 =? 0) && (w mod 14 =? 0)
           then Ok (map (fun l =>
                  ({| shape := [b; (h / 14) * (w / 14); dim];
                      data := fun idx =>
                        match idx with
                        | [n; p; _] =>
                            (data x [n; 0; 14 * (p / (w / 14)); 14 * (p mod (w / 14))]%nat
                             + inject_Z (Z.of_nat l))%Q
                        | _ => 0%Q
                        end |},
                   constant_tensor [b; dim] (inject_Z (Z.of_nat l))))
                  (seq 0 (selection_count sel)))
           else Err AssertionError
       | _ => Err AssertionError
       end |}.

Definition example_hub (repo entry : string) : Backbone :=
  if String.eqb entry "dinov2_vits14" then example_backbone 384
  else if String.eqb entry "dinov2_vitb14" then example_backbone 768
  else example_backbone 1024.

(** The 2x2 map with entries 0, 1, 2, 3. *)
Definition example_grid : Tensor :=
  {| shape := [1; 1; 2; 2];
     data := fun idx =>
       match idx with
       | [_; _; i; j] => inject_Z (Z.of_nat (2 * i + j))
       | _ => 0%Q
       end |}.

(** The entries of a one-image, one-channel map at the given positions. *)
Definition entries (r : result Tensor) (at_ : list (nat * nat)) : option (list Q) :=
  match r with
  | Ok t => Some (map (fun ij => Qred (data t [0; 0; fst ij; snd ij])) at_)
  | Err _ => None
  end.

Definition shape_of (r : result Tensor) : result (list nat) :=
  match r with
  | Ok t => Ok (shape t)
  | Err e => Err e
  end.

Definition example_image (b h w : nat) : Tensor :=
  {| shape := [b; 3; h; w];
     data := fun idx => (inject_Z (Z.of_nat (fold_right Nat.add 0%nat idx)) / 7)%Q |}.


(** A backbone whose answer depends on the hidden state: it answers like
    [example_backbone] on its first call and raises afterwards. *)
Definition one_shot_backbone (dim : nat) : StatefulBackbone nat :=
  fun calls x sel =>
    (match calls with
     | 0 => get_intermediate_layers (example_backbone dim) x sel
     | S _ => Err RuntimeError
     end, S calls).




(** ** Properties of results *)

(** [returns r P]: the computation succeeds and its value satisfies [P]. *)
Definition returns {A : Type} (r : result A) (P : A -> Prop) : Prop :=
  match r with
  | Ok a => P a
  | Err _ => False
  end.

Definition has_shape (s : list nat) (t : Tensor) : Prop := shape t = s.

(** The well-formed feature entry of the data model: patch tokens
    [(batch, cells, width)] and class token [(batch, width)]. *)
Definition feature_ok (batch cells width : nat) (f : Feature) : Prop :=
  shape (fst f) = [batch; cells; width] /\ shape (snd f) = [batch; width].


Definition nonnegative (t : Tensor) : Prop :=
  forall idx, (0 <= data t idx)%Q.

(** Spatial sizes of the four resampled maps, finest first. *)
Definition resampled_size (i n : nat) : nat :=
  match i with
  | 0 => 4 * n
  | 1 => 2 * n
  | 2 => n
  | _ => (n + 1) / 2
  end.

(** The answer of the backbone on input [x]: one well-formed entry for
    each of the four selected layers, over the patch grid of [x]. *)
Definition backbone_answers (self : DPT_DINOv2) (x : Tensor) (batch h w : nat)
  : Prop :=
  returns (get_intermediate_layers (pretrained self) x (intermediate_layer_idx self))
    (fun feats =>
       List.length feats = 4
       /\ Forall (feature_ok batch ((h / 14) * (w / 14))
                   (embed_dim (pretrained self))) feats).

(** [fine] has exactly twice the height and twice the width of [coarse]. *)
Definition doubles (fine coarse : Tensor) : Prop :=
  skipn 2 (shape fine) = map (Nat.mul 2) (skipn 2 (shape coarse)).

(** Four maps, finest first, each exactly twice its neighbour. *)
Definition strict_pyramid (maps : list Tensor) : Prop :=
  match maps with
  | [m0; m1; m2; m3] => doubles m0 m1 /\ doubles m1 m2 /\ doubles m2 m3
  | _ => False
  end.


(** Four well-formed entries with batch 1, for the decoder. *)
Definition example_features (cells width : nat) : list Feature :=
  map (fun l => (constant_tensor [1; cells; width] (inject_Z (Z.of_nat l)),
                 constant_tensor [1; width] 1%Q)) (seq 0 4).

(** The encoder names that [DPT_DINOv2.__init__] accepts. *)
Definition encoder_names : list string :=
  ["vits"; "vitb"; "vitl"; "v2_vits"; "v2_vitb"; "v2_vitl"]%string.

(** Two outcomes that come from the same map before the last activation:
    the same exception, or the images of one tensor under [f] and [g]. *)
Definition same_preactivation (f g : Q -> Q) (r1 r2 : result Tensor) : Prop :=
  match r1, r2 with
  | Ok t1, Ok t2 => exists z, t1 = map_data f z /\ t2 = map_data g z
  | Err e1, Err e2 => e1 = e2
  | _, _ => False
  end.

(** A stand-in backbone that accepts every height and width and answers
    over the patch grid of the whole patches. *)
Definition cropping_backbone (dim : nat) : Backbone :=
  {| embed_dim := dim;
     get_intermediate_layers := fun x sel =>
       match shape x with
       | [b; c; h; w] =>
           Ok (map (fun l =>
                 (constant_tensor [b; (h / 14) * (w / 14); dim]
                    (inject_Z (Z.of_nat l)),
                  constant_tensor [b; dim] 1%Q))
                 (seq 0 (selection_count sel)))
       | _ => Err AssertionError
       end |}.

(** Patch tokens whose entries depend on the position. *)
Definition example_tokens (b cells width : nat) : Tensor :=
  {| shape := [b; cells; width]; data := data (example_image b cells width) |}.

(** A map that is 1 at the top-left cell of every channel and 5 elsewhere. *)
Definition example_spot (s : list nat) : Tensor :=
  {| shape := s;
     data := fun idx =>
       match idx with
       | [_; _; 0; 0] => 1%Q
       | _ => 5%Q
       end |}.

(** ** Lemmas on results and on the operators *)

Lemma returns_bind {A B : Type} (r : result A) (f : A -> result B)
  (P : A -> Prop) (Q : B -> Prop) :
  returns r P -> (forall a, P a -> returns (f a) Q) -> returns (bind r f) Q.
Proof.
  destruct r as [a|e]; simpl; [intros Ha Hf; apply Hf, Ha | intros []].
Qed.

Lemma returns_inv {A : Type} (r : result A) (P : A -> Prop) :
  returns r P -> exists a, r = Ok a /\ P a.
Proof.
  destruct r as [a|e]; simpl; [intros Ha; exists a; split; auto | intros []].
Qed.

Lemma conv2d_out_1_1_0 (n : nat) : 1 <= n -> conv2d_out n 1 1 0 = n.
Proof.
  intros Hn; unfold conv2d_out; rewrite Nat.div_1_r; lia.
Qed.

Lemma conv2d_out_3_1_1 (n : nat) : 1 <= n -> conv2d_out n 3 1 1 = n.
Proof.
  intros Hn; unfold conv2d_out; rewrite Nat.div_1_r; lia.
Qed.

Lemma conv2d_out_3_2_1 (n : nat) : 1 <= n -> conv2d_out n 3 2 1 = (n + 1) / 2.
Proof.
  intros Hn; unfold conv2d_out.
  replace (n + 2 * 1 - 3) with (n - 1) by lia.
  replace (n + 1) with ((n - 1) + 1 * 2) by lia.
  rewrite Nat.div_add by lia; reflexivity.
Qed.

Lemma conv_transpose2d_out_same (n k : nat) :
  1 <= n -> conv_transpose2d_out n k k 0 = k * n.
Proof.
  intros Hn; unfold conv_transpose2d_out.
  destruct n as [|n]; [lia|]; simpl; rewrite Nat.sub_0_r; lia.
Qed.

Lemma conv2d_returns (cin cout k s p : nat) (wt bs : list nat -> Q) (x : Tensor)
  (b h w : nat) :
  shape x = [b; cin; h; w] -> s <> 0 -> k <= h + 2 * p -> k <= w + 2 * p ->
  returns (conv2d cin cout k s p wt bs x)
          (has_shape [b; cout; conv2d_out h k s p; conv2d_out w k s p]).
Proof.
  intros Hx Hs Hh Hw; unfold conv2d; rewrite Hx.
  rewrite Nat.eqb_refl; simpl negb.
  destruct (Nat.eqb_spec s 0) as [|_]; [contradiction|].
  destruct (Nat.ltb_spec (h + 2 * p) k) as [|_]; [lia|].
  destruct (Nat.ltb_spec (w + 2 * p) k) as [|_]; [lia|].
  simpl; reflexivity.
Qed.

Lemma conv_transpose2d_returns (c cout k : nat) (wt bs : list nat -> Q)
  (x : Tensor) (b h w : nat) :
  shape x = [b; c; h; w] -> 1 <= k -> 1 <= h -> 1 <= w ->
  returns (conv_transpose2d c cout k k 0 wt bs x)
          (has_shape [b; cout; k * h; k * w]).
Proof.
  intros Hx Hk Hh Hw; unfold conv_transpose2d; rewrite Hx.
  rewrite Nat.eqb_refl; simpl negb.
  destruct (Nat.eqb_spec k 0) as [|_]; [lia|].
  destruct (Nat.eqb_spec h 0) as [|_]; [lia|].
  destruct (Nat.eqb_spec w 0) as [|_]; [lia|].
  destruct (Nat.leb_spec ((h - 1) * k + k) (2 * 0)) as [|_]; [lia|].
  destruct (Nat.leb_spec ((w - 1) * k + k) (2 * 0)) as [|_]; [lia|].
  simpl; unfold has_shape; simpl.
  rewrite !conv_transpose2d_out_same by lia; reflexivity.
Qed.

Lemma linear_returns (fin fout : nat) (wt bs : list nat -> Q) (x : Tensor)
  (lead : list nat) :
  shape x = lead ++ [fin] ->
  returns (linear fin fout wt bs x) (has_shape (lead ++ [fout])).
Proof.
  intros Hx; unfold linear; rewrite Hx, rev_app_distr; simpl.
  rewrite Nat.eqb_refl; simpl; unfold has_shape; simpl.
  rewrite rev_involutive; reflexivity.
Qed.

Lemma F_interpolate_returns (x : Tensor) (b c h w ho wo : nat) :
  shape x = [b; c; h; w] -> 1 <= h -> 1 <= w -> 1 <= ho -> 1 <= wo ->
  returns (F_interpolate x [ho; wo]) (has_shape [b; c; ho; wo]).
Proof.
  intros Hx Hh Hw Hho Hwo; unfold F_interpolate; rewrite Hx.
  destruct (Nat.eqb_spec h 0) as [|_]; [lia|].
  destruct (Nat.eqb_spec w 0) as [|_]; [lia|].
  destruct (Nat.eqb_spec ho 0) as [|_]; [lia|].
  destruct (Nat.eqb_spec wo 0) as [|_]; [lia|].
  simpl; reflexivity.
Qed.

Lemma tensor_add_returns (a b : Tensor) (s : list nat) :
  shape a = s -> shape b = s -> returns (tensor_add a b) (has_shape s).
Proof.
  intros Ha Hb; unfold tensor_add.
  destruct (list_eq_dec Nat.eq_dec (shape a) (shape b)) as [_|Hne];
    [exact Ha | congruence].
Qed.

Lemma unsqueeze_1_returns (t : Tensor) (b : nat) (rest : list nat) :
  shape t = b :: rest -> returns (unsqueeze_1 t) (has_shape (b :: 1 :: rest)).
Proof.
  intros Ht; unfold unsqueeze_1; rewrite Ht; reflexivity.
Qed.

Lemma expand_as_returns (u x : Tensor) (b n d : nat) :
  shape u = [b; 1; d] -> shape x = [b; n; d] ->
  returns (expand_as u x) (has_shape [b; n; d]).
Proof.
  intros Hu Hx; unfold expand_as; rewrite Hu, Hx; simpl.
  rewrite !Nat.eqb_refl, orb_true_r; simpl; reflexivity.
Qed.

Lemma cat_last_returns (x y : Tensor) (lead : list nat) (cx cy : nat) :
  shape x = lead ++ [cx] -> shape y = lead ++ [cy] ->
  returns (cat_last x y) (has_shape (lead ++ [cx + cy])).
Proof.
  intros Hx Hy; unfold cat_last; rewrite Hx, Hy, !rev_app_distr; simpl.
  destruct (list_eq_dec Nat.eq_dec (rev lead) (rev lead)) as [_|Hne];
    [|congruence].
  simpl; unfold has_shape; simpl; rewrite rev_involutive; reflexivity.
Qed.

Lemma permute_0_2_1_returns (x : Tensor) (b n c : nat) :
  shape x = [b; n; c] -> returns (permute_0_2_1 x) (has_shape [b; c; n]).
Proof.
  intros Hx; unfold permute_0_2_1; rewrite Hx; reflexivity.
Qed.

Lemma reshape_returns (x : Tensor) (s : list nat) :
  numel (shape x) = numel s -> returns (reshape x s) (has_shape s).
Proof.
  intros Hn; unfold reshape; rewrite Hn, Nat.eqb_refl; reflexivity.
Qed.

Section Verification.

Context {act : Activations}.

Lemma Sequential_cons (m : Module) (ms : list Module) (x : Tensor) :
  Module_forward (Sequential (m :: ms)) x
  = bind (Module_forward m x) (fun z => Module_forward (Sequential ms) z).
Proof. reflexivity. Qed.

Lemma Sequential_nil (x : Tensor) : Module_forward (Sequential []) x = Ok x.
Proof. reflexivity. Qed.

Lemma Conv2d_returns (sd : StateDict) (cin cout k s p : nat) (x : Tensor)
  (b h w : nat) :
  shape x = [b; cin; h; w] -> s <> 0 -> k <= h + 2 * p -> k <= w + 2 * p ->
  returns (Module_forward (nn_Conv2d sd cin cout k s p) x)
          (has_shape [b; cout; conv2d_out h k s p; conv2d_out w k s p]).
Proof. intros; apply conv2d_returns; assumption. Qed.

(** A 3x3 convolution of stride 1 and padding 1 keeps the spatial size. *)
Lemma Conv2d_3_1_1_returns (sd : StateDict) (cin cout : nat) (x : Tensor)
  (b h w : nat) :
  shape x = [b; cin; h; w] -> 1 <= h -> 1 <= w ->
  returns (Module_forward (nn_Conv2d sd cin cout 3 1 1) x)
          (has_shape [b; cout; h; w]).
Proof.
  intros Hx Hh Hw.
  pose proof (Conv2d_returns sd cin cout 3 1 1 x b h w Hx) as H.
  rewrite !conv2d_out_3_1_1 in H by assumption.
  apply H; lia.
Qed.

(** A 1x1 convolution of stride 1 keeps the spatial size. *)
Lemma Conv2d_1_1_0_returns (sd : StateDict) (cin cout : nat) (x : Tensor)
  (b h w : nat) :
  shape x = [b; cin; h; w] -> 1 <= h -> 1 <= w ->
  returns (Module_forward (nn_Conv2d sd cin cout 1 1 0) x)
          (has_shape [b; cout; h; w]).
Proof.
  intros Hx Hh Hw.
  pose proof (Conv2d_returns sd cin cout 1 1 0 x b h w Hx) as H.
  rewrite !conv2d_out_1_1_0 in H by assumption.
  apply H; lia.
Qed.

(** The readout projection keeps the shape of the patch tokens. *)
Lemma readout_returns (sd : StateDict) (d : nat) (x : Tensor) (b n : nat) :
  shape x = [b; n; 2 * d] ->
  returns (Module_forward (Sequential [nn_Linear sd (2 * d) d; GELU]) x)
          (has_shape [b; n; d]).
Proof.
  intros Hx; rewrite Sequential_cons.
  eapply returns_bind.
  - apply (linear_returns (2 * d) d _ _ x [b; n]); exact Hx.
  - intros y Hy; exact Hy.
Qed.

(** The four resamplers, on a map of the patch grid. *)
Lemma resize_layer_returns (sd : StateDict) (c0 c1 c2 c3 : nat) (i c : nat)
  (x : Tensor) (b ph pw : nat) (rl : Module) :
  nth_error
    [ nn_ConvTranspose2d (scope "resize_layers.0." sd) c0 c0 4 4 0;
      nn_ConvTranspose2d (scope "resize_layers.1." sd) c1 c1 2 2 0;
      Identity;
      nn_Conv2d (scope "resize_layers.3." sd) c3 c3 3 2 1 ] i = Some rl ->
  nth_error [c0; c1; c2; c3] i = Some c ->
  shape x = [b; c; ph; pw] -> 1 <= ph -> 1 <= pw ->
  returns (Module_forward rl x)
          (has_shape [b; c; resampled_size i ph; resampled_size i pw]).
Proof.
  intros Hrl Hc Hx Hph Hpw.
  destruct i as [|[|[|[|i]]]]; simpl in Hrl;
    [| | | |destruct i; discriminate];
    injection Hrl as <-; simpl in Hc; injection Hc as ->.
  - apply (conv_transpose2d_returns c c 4); auto; lia.
  - apply (conv_transpose2d_returns c c 2); auto; lia.
  - exact Hx.
  - pose proof (Conv2d_returns (scope "resize_layers.3." sd) c c 3 2 1 x b ph pw Hx) as H.
    rewrite !conv2d_out_3_2_1 in H by assumption.
    apply H; lia.
Qed.


Lemma DPTHead_layer_returns (sd : StateDict) (nclass D F : nat) (bn : bool)
  (c0 c1 c2 c3 : nat) (rest : list nat) (uc md : bool) (head : DPTHead)
  (ph pw b i : nat) (f : Feature) (c : nat) :
  DPTHead_init sd nclass D F bn (c0 :: c1 :: c2 :: c3 :: rest) uc md = Ok head ->
  1 <= ph -> 1 <= pw ->
  feature_ok b (ph * pw) D f ->
  nth_error [c0; c1; c2; c3] i = Some c ->
  returns (DPTHead_layer head ph pw i f)
          (has_shape [b; c; resampled_size i ph; resampled_size i pw]).
Proof.
  intros Hinit Hph Hpw [Hx Hcls] Hi.
  unfold DPTHead_init in Hinit; cbn in Hinit; injection Hinit as <-.
  unfold DPTHead_layer; cbn [use_clstoken projects resize_layers readout_projects].
  destruct i as [|[|[|[|i]]]]; [| | | |destruct i; discriminate];
    simpl in Hi; injection Hi as <-.
  all: eapply returns_bind with (P := has_shape [b; ph * pw; D]).
  1,3,5,7: (destruct uc;
    [ destruct f as [x cls]; simpl in Hx, Hcls;
      (eapply returns_bind;
        [apply (unsqueeze_1_returns cls b [D]); exact Hcls | intros u Hu]);
      (eapply returns_bind;
        [apply (expand_as_returns u x b (ph * pw) D); assumption | intros r Hr]);
      cbn [getattr getitem nth_error bind];
      (eapply returns_bind;
        [apply (cat_last_returns x r [b; ph * pw] D D); assumption | intros k Hk]);
      change (D + (D + 0)) with (2 * D);
      apply readout_returns; unfold has_shape in Hk; rewrite Hk; simpl;
      do 3 f_equal; lia
    | exact Hx ]).
  all: intros x Hx'; unfold has_shape in Hx'.
  all: (eapply returns_bind;
        [apply (permute_0_2_1_returns x b (ph * pw) D); exact Hx' | intros p Hp]).
  all: rewrite Hx'; cbn [getitem nth_error rev app bind].
  all: (eapply returns_bind with (P := has_shape [b; D; ph; pw]);
        [apply reshape_returns; unfold has_shape in Hp; rewrite Hp; simpl; ring
        | intros y Hy]).
  all: (eapply returns_bind;
        [apply (Conv2d_1_1_0_returns _ D _ y b ph pw); assumption | intros z Hz]).
  all: eapply (resize_layer_returns sd c0 c1 c2 c3); eauto; reflexivity.
Qed.



Lemma residual_conv_returns (sd : StateDict) (F : nat) (bn : bool)
  (x : Tensor) (b h w : nat) :
  shape x = [b; F; h; w] -> 1 <= h -> 1 <= w ->
  returns (residual_conv (_make_fusion_block sd F bn None) x)
          (has_shape [b; F; h; w]).
Proof.
  intros Hx Hh Hw; unfold residual_conv.
  cbn [_make_fusion_block new_FeatureFusionBlock ffb_activation ffb_res_conv
       Module_forward bind].
  eapply returns_bind.
  - apply (Conv2d_3_1_1_returns _ F F (map_data Qrelu x) b h w); assumption.
  - intros y Hy; apply tensor_add_returns; assumption.
Qed.

(** A fusion stage with a requested size returns a map of that size. *)
Lemma fuse_sized_returns (sd : StateDict) (F : nat) (bn : bool)
  (acc : Tensor) (aux : list Tensor) (b h w ho wo : nat) :
  shape acc = [b; F; h; w] ->
  Forall (has_shape [b; F; h; w]) aux ->
  1 <= h -> 1 <= w -> 1 <= ho -> 1 <= wo ->
  returns (fuse (Some (_make_fusion_block sd F bn None)) (acc :: aux)
             (Some [ho; wo]))
          (has_shape [b; F; ho; wo]).
Proof.
  intros Hacc Haux Hh Hw Hho Hwo.
  unfold fuse; cbn [getattr bind]; unfold FeatureFusionBlock_forward.
  eapply returns_bind with (P := has_shape [b; F; h; w]).
  - destruct aux as [|a aux']; [exact Hacc|].
    inversion Haux as [|? ? Ha _]; subst.
    eapply returns_bind.
    + apply residual_conv_returns; eassumption.
    + intros r Hr; apply tensor_add_returns; assumption.
  - intros y Hy; apply F_interpolate_returns with (h := h) (w := w); assumption.
Qed.

(** A fusion stage without a requested size returns a map of the size of
    its inputs. *)
Lemma fuse_unsized_returns (sd : StateDict) (F : nat) (bn : bool)
  (acc : Tensor) (aux : list Tensor) (b h w : nat) :
  shape acc = [b; F; h; w] ->
  Forall (has_shape [b; F; h; w]) aux ->
  1 <= h -> 1 <= w ->
  returns (fuse (Some (_make_fusion_block sd F bn None)) (acc :: aux) None)
          (has_shape [b; F; h; w]).
Proof.
  intros Hacc Haux Hh Hw.
  unfold fuse; cbn [getattr bind]; unfold FeatureFusionBlock_forward.
  eapply returns_bind with (P := has_shape [b; F; h; w]).
  - destruct aux as [|a aux']; [exact Hacc|].
    inversion Haux as [|? ? Ha _]; subst.
    eapply returns_bind.
    + apply residual_conv_returns; eassumption.
    + intros r Hr; apply tensor_add_returns; assumption.
  - intros y Hy; exact Hy.
Qed.




(** The loop of the decoder on four well-formed entries. *)
Lemma DPTHead_layers_returns (sd : StateDict) (nclass D F : nat) (bn : bool)
  (c0 c1 c2 c3 : nat) (rest : list nat) (uc md : bool) (head : DPTHead)
  (ph pw b : nat) (feats : list Feature) :
  DPTHead_init sd nclass D F bn (c0 :: c1 :: c2 :: c3 :: rest) uc md = Ok head ->
  1 <= ph -> 1 <= pw ->
  List.length feats = 4 ->
  Forall (feature_ok b (ph * pw) D) feats ->
  returns (DPTHead_layers head ph pw 0 feats)
    (fun out => exists l1 l2 l3 l4,
       out = [l1; l2; l3; l4]
       /\ shape l1 = [b; c0; 4 * ph; 4 * pw]
       /\ shape l2 = [b; c1; 2 * ph; 2 * pw]
       /\ shape l3 = [b; c2; ph; pw]
       /\ shape l4 = [b; c3; (ph + 1) / 2; (pw + 1) / 2]).
Proof.
  intros Hinit Hph Hpw Hlen Hok.
  destruct feats as [|f0 [|f1 [|f2 [|f3 [|f4 feats]]]]]; try discriminate.
  inversion Hok as [|? ? H0 Hok1]; subst.
  inversion Hok1 as [|? ? H1 Hok2]; subst.
  inversion Hok2 as [|? ? H2 Hok3]; subst.
  inversion Hok3 as [|? ? H3 _]; subst.
  destruct (returns_inv _ _ (DPTHead_layer_returns sd nclass D F bn c0 c1 c2 c3
    rest uc md head ph pw b 0 f0 c0 Hinit Hph Hpw H0 eq_refl)) as (l1 & E1 & S1).
  destruct (returns_inv _ _ (DPTHead_layer_returns sd nclass D F bn c0 c1 c2 c3
    rest uc md head ph pw b 1 f1 c1 Hinit Hph Hpw H1 eq_refl)) as (l2 & E2 & S2).
  destruct (returns_inv _ _ (DPTHead_layer_returns sd nclass D F bn c0 c1 c2 c3
    rest uc md head ph pw b 2 f2 c2 Hinit Hph Hpw H2 eq_refl)) as (l3 & E3 & S3).
  destruct (returns_inv _ _ (DPTHead_layer_returns sd nclass D F bn c0 c1 c2 c3
    rest uc md head ph pw b 3 f3 c3 Hinit Hph Hpw H3 eq_refl)) as (l4 & E4 & S4).
  cbn [DPTHead_layers]; rewrite E1, E2, E3, E4; cbn [bind returns].
  exists l1, l2, l3, l4; repeat split; assumption.
Qed.



(** The scratch reductions bring every resampled map to the fusion width. *)
Lemma scratch_reductions_return (sd : StateDict) (nclass D F : nat) (bn : bool)
  (c0 c1 c2 c3 : nat) (rest : list nat) (uc md : bool) (head : DPTHead)
  (l1 l2 l3 l4 : Tensor) (b h1 w1 h2 w2 h3 w3 h4 w4 : nat) :
  DPTHead_init sd nclass D F bn (c0 :: c1 :: c2 :: c3 :: rest) uc md = Ok head ->
  shape l1 = [b; c0; h1; w1] -> shape l2 = [b; c1; h2; w2] ->
  shape l3 = [b; c2; h3; w3] -> shape l4 = [b; c3; h4; w4] ->
  1 <= h1 -> 1 <= w1 -> 1 <= h2 -> 1 <= w2 ->
  1 <= h3 -> 1 <= w3 -> 1 <= h4 -> 1 <= w4 ->
  exists r1 r2 r3 r4,
    call (layer1_rn (scratch head)) l1 = Ok r1 /\ shape r1 = [b; F; h1; w1]
    /\ call (layer2_rn (scratch head)) l2 = Ok r2 /\ shape r2 = [b; F; h2; w2]
    /\ call (layer3_rn (scratch head)) l3 = Ok r3 /\ shape r3 = [b; F; h3; w3]
    /\ call (layer4_rn (scratch head)) l4 = Ok r4 /\ shape r4 = [b; F; h4; w4].
Proof.
  intros Hinit S1 S2 S3 S4 ? ? ? ? ? ? ? ?.
  unfold DPTHead_init in Hinit; cbn in Hinit; injection Hinit as <-.
  cbn [scratch layer1_rn layer2_rn layer3_rn layer4_rn call getattr bind].
  destruct (returns_inv _ _ (Conv2d_3_1_1_returns (scope "layer1_rn." (scope "scratch." sd))
    c0 F l1 b h1 w1 S1 ltac:(assumption) ltac:(assumption))) as (r1 & E1 & R1).
  destruct (returns_inv _ _ (Conv2d_3_1_1_returns (scope "layer2_rn." (scope "scratch." sd))
    c1 F l2 b h2 w2 S2 ltac:(assumption) ltac:(assumption))) as (r2 & E2 & R2).
  destruct (returns_inv _ _ (Conv2d_3_1_1_returns (scope "layer3_rn." (scope "scratch." sd))
    c2 F l3 b h3 w3 S3 ltac:(assumption) ltac:(assumption))) as (r3 & E3 & R3).
  destruct (returns_inv _ _ (Conv2d_3_1_1_returns (scope "layer4_rn." (scope "scratch." sd))
    c3 F l4 b h4 w4 S4 ltac:(assumption) ltac:(assumption))) as (r4 & E4 & R4).
  exists r1, r2, r3, r4; repeat split; assumption.
Qed.

(** The fusion chain on four maps of the fusion width, of any positive
    sizes: every stage succeeds, and the first three return a map of the
    size of the next finer input. *)
Lemma DPTHead_fusion_chain (sd : StateDict) (nclass D F : nat) (bn : bool)
  (c0 c1 c2 c3 : nat) (rest : list nat) (uc md : bool) (head : DPTHead)
  (r1 r2 r3 r4 : Tensor) (b h1 w1 h2 w2 h3 w3 h4 w4 : nat) :
  DPTHead_init sd nclass D F bn (c0 :: c1 :: c2 :: c3 :: rest) uc md = Ok head ->
  shape r1 = [b; F; h1; w1] -> shape r2 = [b; F; h2; w2] ->
  shape r3 = [b; F; h3; w3] -> shape r4 = [b; F; h4; w4] ->
  1 <= h1 -> 1 <= w1 -> 1 <= h2 -> 1 <= w2 ->
  1 <= h3 -> 1 <= w3 -> 1 <= h4 -> 1 <= w4 ->
  exists p4 p3 p2 p1,
    fuse (refinenet4 (scratch head)) [r4] (Some (spatial r3)) = Ok p4
    /\ shape p4 = [b; F; h3; w3]
    /\ fuse (refinenet3 (scratch head)) [p4; r3] (Some (spatial r2)) = Ok p3
    /\ shape p3 = [b; F; h2; w2]
    /\ fuse (refinenet2 (scratch head)) [p3; r2] (Some (spatial r1)) = Ok p2
    /\ shape p2 = [b; F; h1; w1]
    /\ fuse (refinenet1 (scratch head)) [p2; r1] None = Ok p1
    /\ shape p1 = [b; F; h1; w1]
    /\ DPTHead_fusion (scratch head) r1 r2 r3 r4 = Ok p1.
Proof.
  intros Hinit S1 S2 S3 S4 ? ? ? ? ? ? ? ?.
  unfold DPTHead_init in Hinit; cbn in Hinit; injection Hinit as <-.
  unfold DPTHead_fusion.
  cbn [scratch refinenet1 refinenet2 refinenet3 refinenet4].
  unfold spatial; rewrite S1, S2, S3; cbn [skipn].
  destruct (returns_inv _ _ (fuse_sized_returns (scope "scratch.refinenet4." sd)
    F bn r4 [] b h4 w4 h3 w3 S4 (Forall_nil _) ltac:(assumption) ltac:(assumption)
    ltac:(assumption) ltac:(assumption))) as (p4 & E4 & P4).
  destruct (returns_inv _ _ (fuse_sized_returns (scope "scratch.refinenet3." sd)
    F bn p4 [r3] b h3 w3 h2 w2 P4 (Forall_cons _ S3 (Forall_nil _))
    ltac:(assumption) ltac:(assumption) ltac:(assumption) ltac:(assumption)))
    as (p3 & E3 & P3).
  destruct (returns_inv _ _ (fuse_sized_returns (scope "scratch.refinenet2." sd)
    F bn p3 [r2] b h2 w2 h1 w1 P3 (Forall_cons _ S2 (Forall_nil _))
    ltac:(assumption) ltac:(assumption) ltac:(assumption) ltac:(assumption)))
    as (p2 & E2 & P2).
  destruct (returns_inv _ _ (fuse_unsized_returns (scope "scratch.refinenet1." sd)
    F bn p2 [r1] b h1 w1 P2 (Forall_cons _ S1 (Forall_nil _))
    ltac:(assumption) ltac:(assumption))) as (p1 & E1 & P1).
  exists p4, p3, p2, p1.
  rewrite E4; cbn [bind]; rewrite E3; cbn [bind]; rewrite E2; cbn [bind].
  repeat split; assumption.
Qed.



Lemma Module_forward_ReLU (inplace : bool) (x : Tensor) :
  Module_forward (ReLU inplace) x = Ok (map_data Qrelu x).
Proof. reflexivity. Qed.

Lemma Module_forward_Sigmoid (x : Tensor) :
  Module_forward Sigmoid x = Ok (map_data sigmoid x).
Proof. reflexivity. Qed.

Lemma Module_forward_Identity (x : Tensor) : Module_forward Identity x = Ok x.
Proof. reflexivity. Qed.

(** The depth head on the fused map: one channel at 14 times the patch
    grid, every entry an image of the final activation. *)
Lemma DPTHead_output_returns (sd : StateDict) (nclass D F : nat) (bn : bool)
  (c0 c1 c2 c3 : nat) (rest : list nat) (uc md : bool) (head : DPTHead)
  (p1 : Tensor) (b h w ph pw : nat) :
  DPTHead_init sd nclass D F bn (c0 :: c1 :: c2 :: c3 :: rest) uc md = Ok head ->
  nclass <= 1 ->
  shape p1 = [b; F; h; w] -> 1 <= h -> 1 <= w -> 1 <= ph -> 1 <= pw ->
  returns (DPTHead_output (scratch head) p1 ph pw)
    (fun out => shape out = [b; 1; ph * 14; pw * 14]
                /\ exists z, out = map_data (final_activation md) z).
Proof.
  intros Hinit Hn Hp Hh Hw Hph Hpw.
  assert (Hlt : (1 <? nclass) = false) by (apply Nat.ltb_ge; exact Hn).
  unfold DPTHead_init in Hinit; rewrite Hlt in Hinit; cbn in Hinit.
  injection Hinit as <-.
  unfold DPTHead_output; cbn [scratch output_conv1 output_conv2 call getattr bind].
  eapply returns_bind;
    [apply (Conv2d_3_1_1_returns _ F _ p1 b h w); assumption | intros o1 Ho1].
  eapply returns_bind;
    [apply (F_interpolate_returns o1 b (F / 2) h w (ph * 14) (pw * 14));
       try assumption; lia
    | intros o2 Ho2].
  rewrite Sequential_cons.
  eapply returns_bind;
    [apply (Conv2d_3_1_1_returns _ (F / 2) 32 o2 b (ph * 14) (pw * 14));
       try assumption; lia
    | intros o3 Ho3].
  rewrite Sequential_cons, Module_forward_ReLU; cbn [bind].
  rewrite Sequential_cons.
  eapply returns_bind;
    [apply (Conv2d_1_1_0_returns _ 32 1 (map_data Qrelu o3) b (ph * 14) (pw * 14));
       try assumption; lia
    | intros o4 Ho4].
  rewrite Sequential_cons.
  destruct md;
    [rewrite Module_forward_Sigmoid | rewrite Module_forward_ReLU];
    cbn [bind]; rewrite Sequential_cons, Module_forward_Identity; cbn [bind];
    rewrite Sequential_nil; cbn [returns];
    (split; [exact Ho4 | exists o4; reflexivity]).
Qed.

(** The decoder up to the fused map: on well-formed entries every stage
    succeeds, and the result of [DPTHead.forward] is the output head applied
    to [path_1]. *)
Lemma DPTHead_forward_chain (sd : StateDict) (nclass D F : nat) (bn : bool)
  (c0 c1 c2 c3 : nat) (rest : list nat) (uc md : bool) (head : DPTHead)
  (feats : list Feature) (b ph pw : nat) :
  DPTHead_init sd nclass D F bn (c0 :: c1 :: c2 :: c3 :: rest) uc md = Ok head ->
  List.length feats = 4 ->
  Forall (feature_ok b (ph * pw) D) feats ->
  1 <= ph -> 1 <= pw ->
  exists l1 l2 l3 l4 r1 r2 r3 r4 p4 p3 p2 p1,
    DPTHead_layers head ph pw 0 feats = Ok [l1; l2; l3; l4]
    /\ call (layer1_rn (scratch head)) l1 = Ok r1
    /\ call (layer2_rn (scratch head)) l2 = Ok r2
    /\ call (layer3_rn (scratch head)) l3 = Ok r3
    /\ call (layer4_rn (scratch head)) l4 = Ok r4
    /\ shape r1 = [b; F; 4 * ph; 4 * pw]
    /\ shape r2 = [b; F; 2 * ph; 2 * pw]
    /\ shape r3 = [b; F; ph; pw]
    /\ shape r4 = [b; F; (ph + 1) / 2; (pw + 1) / 2]
    /\ fuse (refinenet4 (scratch head)) [r4] (Some (spatial r3)) = Ok p4
    /\ shape p4 = shape r3
    /\ fuse (refinenet3 (scratch head)) [p4; r3] (Some (spatial r2)) = Ok p3
    /\ shape p3 = shape r2
    /\ fuse (refinenet2 (scratch head)) [p3; r2] (Some (spatial r1)) = Ok p2
    /\ shape p2 = shape r1
    /\ fuse (refinenet1 (scratch head)) [p2; r1] None = Ok p1
    /\ shape p1 = shape r1
    /\ DPTHead_forward head feats ph pw
       = DPTHead_output (scratch head) p1 ph pw.
Proof.
  intros Hinit Hlen Hok Hph Hpw.
  destruct (returns_inv _ _ (DPTHead_layers_returns sd nclass D F bn c0 c1 c2 c3
    rest uc md head ph pw b feats Hinit Hph Hpw Hlen Hok))
    as (out & Eout & l1 & l2 & l3 & l4 & -> & S1 & S2 & S3 & S4).
  assert (Hh4 : 1 <= (ph + 1) / 2)
    by (apply (Nat.div_le_lower_bound (ph + 1) 2 1); lia).
  assert (Hw4 : 1 <= (pw + 1) / 2)
    by (apply (Nat.div_le_lower_bound (pw + 1) 2 1); lia).
  destruct (scratch_reductions_return sd nclass D F bn c0 c1 c2 c3 rest uc md head
    l1 l2 l3 l4 b _ _ _ _ _ _ _ _ Hinit S1 S2 S3 S4)
    as (r1 & r2 & r3 & r4 & E1 & R1 & E2 & R2 & E3 & R3 & E4 & R4); try lia.
  destruct (DPTHead_fusion_chain sd nclass D F bn c0 c1 c2 c3 rest uc md head
    r1 r2 r3 r4 b _ _ _ _ _ _ _ _ Hinit R1 R2 R3 R4)
    as (p4 & p3 & p2 & p1 & F4 & P4 & F3 & P3 & F2 & P2 & F1 & P1 & Hchain);
    try lia.
  exists l1, l2, l3, l4, r1, r2, r3, r4, p4, p3, p2, p1.
  repeat split; try assumption; try congruence.
  unfold DPTHead_forward; rewrite Eout; cbn [bind].
  rewrite E1, E2, E3, E4; cbn [bind]; rewrite Hchain; reflexivity.
Qed.



Lemma Qrelu_nonneg (v : Q) : (0 <= Qrelu v)%Q.
Proof.
  unfold Qrelu; destruct (Qle_bool 0 v) eqn:Hv.
  - apply Qle_bool_iff; exact Hv.
  - apply Qle_refl.
Qed.

(** What [DPT_DINOv2.__init__] builds: a depth head with one class over the
    four widths of the encoder variant, and four selected layers. *)
Lemma DPT_DINOv2_init_inv (hub : string -> string -> Backbone) (sd : StateDict)
  (enc : string) (bn uc lh md : bool) (maxd : Q) (model : DPT_DINOv2) :
  DPT_DINOv2_init hub sd enc bn uc lh md maxd = Ok model ->
  metric_depth model = md
  /\ max_depth model = maxd
  /\ selection_count (intermediate_layer_idx model) = 4
  /\ exists F c0 c1 c2 c3,
       DPTHead_init (scope "depth_head." sd) 1 (embed_dim (pretrained model)) F bn
         [c0; c1; c2; c3] uc md = Ok (depth_head model).
Proof.
  unfold DPT_DINOv2_init.
  destruct (existsb (String.eqb enc)
              ["vits"; "vitb"; "vitl"; "v2_vits"; "v2_vitb"; "v2_vitl"]%string)
    eqn:Henc; [|discriminate].
  apply existsb_exists in Henc; destruct Henc as (e & Hin & Heq).
  apply String.eqb_eq in Heq; subst e.
  cbn [negb].
  simpl in Hin.
  destruct Hin as [<-|[<-|[<-|[<-|[<-|[<-|[]]]]]]].
  all: cbn [dict_get _SETTINGS String.eqb Ascii.eqb Bool.eqb bind].
  all: match goal with
       | |- context [DPTHead_init ?s ?n ?d ?f ?b ?o ?u ?m] =>
           destruct (DPTHead_init s n d f b o u m) as [head|e] eqn:Hhead
       end; cbn [bind]; [|discriminate].
  all: intros Hm; injection Hm as <-.
  all: cbn [metric_depth max_depth intermediate_layer_idx depth_head pretrained
            selection_count List.length].
  all: repeat split.
  all: do 5 eexists; exact Hhead.
Qed.

Lemma multiple_of_14 (n : nat) :
  1 <= n -> n mod 14 = 0 -> 1 <= n / 14 /\ n / 14 * 14 = n.
Proof.
  intros Hn Hm; pose proof (Nat.div_mod_eq n 14) as H; lia.
Qed.

(** The end of the wrapper on a one-channel map. *)
Lemma DPT_DINOv2_postprocess_one_channel (self : DPT_DINOv2) (depth : Tensor)
  (b h w : nat) :
  shape depth = [b; 1; h; w] ->
  exists out,
    DPT_DINOv2_postprocess self depth = Ok out
    /\ shape out = [b; h; w]
    /\ forall idx,
         data out idx
         = match idx with
           | i :: r =>
               if metric_depth self
               then (data depth (i :: 0%nat :: r) * max_depth self)%Q
               else Qrelu (data depth (i :: 0 :: r))
           | [] => 0%Q
           end.
Proof.
  intros Hd; unfold DPT_DINOv2_postprocess, squeeze_1.
  destruct (metric_depth self);
    cbn [tensor_mul_scalar F_relu map_data shape]; rewrite Hd;
    cbn [Nat.eqb]; eexists; (split; [reflexivity|]);
    (split; [reflexivity|]); intros [|i r]; reflexivity.
Qed.

(** The wrapper on a valid input: the decoder returns a one-channel map of
    the size of the input, every entry an image of the final activation, and
    the result of [DPT_DINOv2.forward] is its post-processing. *)
Lemma DPT_DINOv2_forward_valid (hub : string -> string -> Backbone) (sd : StateDict)
  (enc : string) (bn uc lh md : bool) (maxd : Q) (model : DPT_DINOv2)
  (x : Tensor) (batch h w : nat) :
  DPT_DINOv2_init hub sd enc bn uc lh md maxd = Ok model ->
  shape x = [batch; 3; h; w] ->
  1 <= h -> 1 <= w -> h mod 14 = 0 -> w mod 14 = 0 ->
  backbone_answers model x batch h w ->
  exists feats depth z,
    get_intermediate_layers (pretrained model) x (intermediate_layer_idx model)
    = Ok feats
    /\ DPTHead_forward (depth_head model) feats (h / 14) (w / 14) = Ok depth
    /\ shape depth = [batch; 1; h; w]
    /\ depth = map_data (final_activation md) z
    /\ DPT_DINOv2_forward model x = DPT_DINOv2_postprocess model depth.
Proof.
  intros Hinit Hx Hh Hw Hhm Hwm Hbb.
  destruct (DPT_DINOv2_init_inv _ _ _ _ _ _ _ _ _ Hinit)
    as (_ & _ & _ & F & c0 & c1 & c2 & c3 & Hhead).
  destruct (multiple_of_14 h Hh Hhm) as (Hph & Hh14).
  destruct (multiple_of_14 w Hw Hwm) as (Hpw & Hw14).
  destruct (returns_inv _ _ Hbb) as (feats & Efeats & Hlen & Hok).
  destruct (DPTHead_forward_chain _ _ _ _ _ _ _ _ _ _ _ _ _ _ _ _ _
              Hhead Hlen Hok Hph Hpw)
    as (l1 & l2 & l3 & l4 & r1 & r2 & r3 & r4 & p4 & p3 & p2 & p1 & _ & _ & _ & _
        & _ & R1 & _ & _ & _ & _ & _ & _ & _ & _ & _ & _ & P1 & Hfwd).
  rewrite R1 in P1.
  destruct (returns_inv _ _ (DPTHead_output_returns _ _ _ _ _ _ _ _ _ _ _ _ _
              p1 batch (4 * (h / 14)) (4 * (w / 14)) (h / 14) (w / 14)
              Hhead (le_n 1) P1 ltac:(lia) ltac:(lia) Hph Hpw))
    as (depth & Edepth & Sdepth & z & Hz).
  rewrite Hh14, Hw14 in Sdepth.
  exists feats, depth, z; repeat split; try assumption.
  { rewrite Hfwd; exact Edepth. }
  unfold DPT_DINOv2_forward; rewrite Hx; cbn [last_two rev app bind].
  rewrite Efeats; cbn [bind]; rewrite Hfwd, Edepth; cbn [bind].
  rewrite Sdepth; cbn [getitem nth_error bind].
  rewrite !Nat.eqb_refl; cbn [negb bind]; reflexivity.
Qed.



(** ** The claims *)

(** C1: for every batch of at least one image whose height and width are
    positive multiples of 14, on which the backbone returns its four
    well-formed entries, [DPT_DINOv2.forward] applied to an input of shape
    [(batch, 3, H, W)] returns a tensor of shape [(batch, H, W)]. *)
Theorem DPT_DINOv2_forward_output_shape
  (hub : string -> string -> Backbone) (sd : StateDict) (enc : string)
  (bn uc lh md : bool) (maxd : Q) (model : DPT_DINOv2)
  (x : Tensor) (batch h w : nat) :
  DPT_DINOv2_init hub sd enc bn uc lh md maxd = Ok model ->
  shape x = [batch; 3; h; w] ->
  1 <= batch -> 1 <= h -> 1 <= w -> h mod 14 = 0 -> w mod 14 = 0 ->
  backbone_answers model x batch h w ->
  exists out, DPT_DINOv2_forward model x = Ok out /\ shape out = [batch; h; w].
Proof.
  intros Hinit Hx _ Hh Hw Hhm Hwm Hbb.
  destruct (DPT_DINOv2_forward_valid _ _ _ _ _ _ _ _ _ _ _ _ _
              Hinit Hx Hh Hw Hhm Hwm Hbb)
    as (feats & depth & z & _ & _ & Sd & _ & Hfwd).
  destruct (DPT_DINOv2_postprocess_one_channel model depth batch h w Sd)
    as (out & Eout & Sout & _).
  exists out; split; [rewrite Hfwd; exact Eout | exact Sout].
Qed.


(** C3, as the code behaves: a head built with [nclass > 1] has no
    [output_conv1], and [DPTHead.forward] on well-formed entries raises
    [AttributeError] once the fusion chain is done, instead of returning
    per-class logits. *)
Theorem DPTHead_forward_multiclass_raises
  (sd : StateDict) (nclass D F : nat) (bn : bool) (c0 c1 c2 c3 : nat)
  (rest : list nat) (uc md : bool) (head : DPTHead)
  (feats : list Feature) (b ph pw : nat) :
  1 < nclass ->
  DPTHead_init sd nclass D F bn (c0 :: c1 :: c2 :: c3 :: rest) uc md = Ok head ->
  List.length feats = 4 ->
  Forall (feature_ok b (ph * pw) D) feats ->
  1 <= ph -> 1 <= pw ->
  output_conv (scratch head) <> None
  /\ DPTHead_forward head feats ph pw = Err AttributeError.
Proof.
  intros Hn Hinit Hlen Hok Hph Hpw.
  destruct (DPTHead_forward_chain _ _ _ _ _ _ _ _ _ _ _ _ _ _ _ _ _
              Hinit Hlen Hok Hph Hpw)
    as (l1 & l2 & l3 & l4 & r1 & r2 & r3 & r4 & p4 & p3 & p2 & p1 & H).
  repeat match type of H with _ /\ _ => destruct H as [_ H] end; rewrite H.
  assert (Hlt : (1 <? nclass) = true) by (apply Nat.ltb_lt; exact Hn).
  unfold DPTHead_init in Hinit; rewrite Hlt in Hinit; cbn in Hinit.
  injection Hinit as <-; split; [discriminate | reflexivity].
Qed.

(** C4, amended: on well-formed entries over a patch grid of at least one
    cell each way, the four resampled maps have the spatial sizes
    [4*patch_h x 4*patch_w], [2*patch_h x 2*patch_w], [patch_h x patch_w]
    and [ceil(patch_h/2) x ceil(patch_w/2)]; the first is exactly twice the
    second and the second exactly twice the third, and the third is exactly
    twice the fourth if and only if [patch_h] and [patch_w] are even. *)
Theorem DPTHead_resampled_sizes
  (sd : StateDict) (nclass D F : nat) (bn : bool) (c0 c1 c2 c3 : nat)
  (rest : list nat) (uc md : bool) (head : DPTHead)
  (feats : list Feature) (b ph pw : nat) :
  DPTHead_init sd nclass D F bn (c0 :: c1 :: c2 :: c3 :: rest) uc md = Ok head ->
  List.length feats = 4 ->
  Forall (feature_ok b (ph * pw) D) feats ->
  1 <= ph -> 1 <= pw ->
  exists l1 l2 l3 l4,
    DPTHead_layers head ph pw 0 feats = Ok [l1; l2; l3; l4]
    /\ shape l1 = [b; c0; 4 * ph; 4 * pw]
    /\ shape l2 = [b; c1; 2 * ph; 2 * pw]
    /\ shape l3 = [b; c2; ph; pw]
    /\ shape l4 = [b; c3; (ph + 1) / 2; (pw + 1) / 2]
    /\ doubles l1 l2
    /\ doubles l2 l3
    /\ (doubles l3 l4 <-> Nat.even ph = true /\ Nat.even pw = true).
Proof.
  intros Hinit Hlen Hok Hph Hpw.
  destruct (returns_inv _ _ (DPTHead_layers_returns sd nclass D F bn c0 c1 c2 c3
    rest uc md head ph pw b feats Hinit Hph Hpw Hlen Hok))
    as (out & Eout & l1 & l2 & l3 & l4 & -> & S1 & S2 & S3 & S4).
  exists l1, l2, l3, l4; repeat split; try assumption.
  - unfold doubles; rewrite S1, S2; cbn [skipn map]; f_equal; [lia | f_equal; lia].
  - unfold doubles; rewrite S2, S3; cbn [skipn map]; reflexivity.
  - unfold doubles in H; rewrite S3, S4 in H; cbn [skipn map] in H.
    injection H as Hh _; apply Nat.even_spec; exists ((ph + 1) / 2); exact Hh.
  - unfold doubles in H; rewrite S3, S4 in H; cbn [skipn map] in H.
    injection H as _ Hw; apply Nat.even_spec; exists ((pw + 1) / 2); exact Hw.
  - intros [Hh Hw]; unfold doubles; rewrite S3, S4; cbn [skipn map].
    apply Nat.even_spec in Hh, Hw.
    destruct Hh as [i ->], Hw as [j ->].
    replace (2 * i + 1) with (1 + i * 2) by lia.
    replace (2 * j + 1) with (1 + j * 2) by lia.
    rewrite !Nat.div_add by lia; reflexivity.
Qed.

(** Two models built from the same arguments except [max_depth] differ in
    that field only. *)
Lemma DPT_DINOv2_init_max_depth (hub : string -> string -> Backbone)
  (sd : StateDict) (enc : string) (bn uc lh md : bool) (maxd1 maxd2 : Q)
  (m1 m2 : DPT_DINOv2) :
  DPT_DINOv2_init hub sd enc bn uc lh md maxd1 = Ok m1 ->
  DPT_DINOv2_init hub sd enc bn uc lh md maxd2 = Ok m2 ->
  intermediate_layer_idx m2 = intermediate_layer_idx m1
  /\ metric_depth m1 = md /\ metric_depth m2 = md
  /\ max_depth m1 = maxd1 /\ max_depth m2 = maxd2
  /\ pretrained m2 = pretrained m1
  /\ depth_head m2 = depth_head m1.
Proof.
  unfold DPT_DINOv2_init.
  destruct (negb _); [discriminate|].
  destruct (dict_get _SETTINGS enc) as [[[F ocs] idx]|e]; cbn [bind];
    [|discriminate].
  match goal with
  | |- context [DPTHead_init ?s ?n ?d ?f ?b ?o ?u ?m] =>
      destruct (DPTHead_init s n d f b o u m) as [head|e]
  end; cbn [bind]; [|discriminate].
  intros H1 H2; injection H1 as <-; injection H2 as <-.
  repeat split.
Qed.


(** C6: on well-formed entries [DPTHead.forward] runs the fusion chain in
    this order: [refinenet4] on [layer_4_rn] alone, resized to the spatial
    size of [layer_3_rn]; [refinenet3] on that and [layer_3_rn], resized to
    the size of [layer_2_rn]; [refinenet2] on that and [layer_2_rn], resized
    to the size of [layer_1_rn]; [refinenet1] on that and [layer_1_rn]
    without a requested size; its result [path_1] is what the output head
    receives. *)
Theorem DPTHead_forward_fusion_order
  (sd : StateDict) (nclass D F : nat) (bn : bool) (c0 c1 c2 c3 : nat)
  (rest : list nat) (uc md : bool) (head : DPTHead)
  (feats : list Feature) (b ph pw : nat) :
  DPTHead_init sd nclass D F bn (c0 :: c1 :: c2 :: c3 :: rest) uc md = Ok head ->
  List.length feats = 4 ->
  Forall (feature_ok b (ph * pw) D) feats ->
  1 <= ph -> 1 <= pw ->
  exists layer_1 layer_2 layer_3 layer_4
         layer_1_rn layer_2_rn layer_3_rn layer_4_rn
         path_4 path_3 path_2 path_1,
    DPTHead_layers head ph pw 0 feats = Ok [layer_1; layer_2; layer_3; layer_4]
    /\ call (layer1_rn (scratch head)) layer_1 = Ok layer_1_rn
    /\ call (layer2_rn (scratch head)) layer_2 = Ok layer_2_rn
    /\ call (layer3_rn (scratch head)) layer_3 = Ok layer_3_rn
    /\ call (layer4_rn (scratch head)) layer_4 = Ok layer_4_rn
    /\ fuse (refinenet4 (scratch head)) [layer_4_rn] (Some (spatial layer_3_rn))
       = Ok path_4
    /\ spatial path_4 = spatial layer_3_rn
    /\ fuse (refinenet3 (scratch head)) [path_4; layer_3_rn]
         (Some (spatial layer_2_rn)) = Ok path_3
    /\ spatial path_3 = spatial layer_2_rn
    /\ fuse (refinenet2 (scratch head)) [path_3; layer_2_rn]
         (Some (spatial layer_1_rn)) = Ok path_2
    /\ spatial path_2 = spatial layer_1_rn
    /\ fuse (refinenet1 (scratch head)) [path_2; layer_1_rn] None = Ok path_1
    /\ DPTHead_forward head feats ph pw
       = DPTHead_output (scratch head) path_1 ph pw.
Proof.
  intros Hinit Hlen Hok Hph Hpw.
  destruct (DPTHead_forward_chain _ _ _ _ _ _ _ _ _ _ _ _ _ _ _ _ _
              Hinit Hlen Hok Hph Hpw)
    as (l1 & l2 & l3 & l4 & r1 & r2 & r3 & r4 & p4 & p3 & p2 & p1 & El & E1 & E2
        & E3 & E4 & _ & _ & _ & _ & F4 & P4 & F3 & P3 & F2 & P2 & F1 & _ & Hfwd).
  exists l1, l2, l3, l4, r1, r2, r3, r4, p4, p3, p2, p1.
  repeat split; try assumption; unfold spatial; congruence.
Qed.

(** C7: for every four well-formed entries over a patch grid of at least
    one cell each way, [DPTHead.forward] of a head built with [nclass = 1]
    returns a tensor with one channel and spatial size
    [(14 * patch_h, 14 * patch_w)]. *)
Theorem DPTHead_forward_depth_shape
  (sd : StateDict) (D F : nat) (bn : bool) (c0 c1 c2 c3 : nat)
  (rest : list nat) (uc md : bool) (head : DPTHead)
  (feats : list Feature) (b ph pw : nat) :
  DPTHead_init sd 1 D F bn (c0 :: c1 :: c2 :: c3 :: rest) uc md = Ok head ->
  List.length feats = 4 ->
  Forall (feature_ok b (ph * pw) D) feats ->
  1 <= ph -> 1 <= pw ->
  exists out,
    DPTHead_forward head feats ph pw = Ok out
    /\ shape out = [b; 1; 14 * ph; 14 * pw].
Proof.
  intros Hinit Hlen Hok Hph Hpw.
  destruct (DPTHead_forward_chain _ _ _ _ _ _ _ _ _ _ _ _ _ _ _ _ _
              Hinit Hlen Hok Hph Hpw)
    as (l1 & l2 & l3 & l4 & r1 & r2 & r3 & r4 & p4 & p3 & p2 & p1 & _ & _ & _ & _
        & _ & R1 & _ & _ & _ & _ & _ & _ & _ & _ & _ & _ & P1 & Hfwd).
  rewrite R1 in P1.
  destruct (returns_inv _ _ (DPTHead_output_returns _ _ _ _ _ _ _ _ _ _ _ _ _
              p1 b (4 * ph) (4 * pw) ph pw
              Hinit (le_n 1) P1 ltac:(lia) ltac:(lia) Hph Hpw))
    as (out & Eout & Sout & _).
  exists out; split; [rewrite Hfwd; exact Eout|].
  rewrite Sout, (Nat.mul_comm ph), (Nat.mul_comm pw); reflexivity.
Qed.

(** C8: in [DPT_DINOv2.forward], when the map that the decoder returns has
    the height and the width of the input, it goes to the post-processing
    unchanged; when it has another height or width, what goes to the
    post-processing is its bilinear aligned-corners resize to the size of
    the input, which is another tensor. *)
Theorem DPT_DINOv2_forward_resize_iff
  (self : DPT_DINOv2) (x : Tensor) (feats : list Feature) (depth : Tensor)
  (h w b c hd wd : nat) :
  last_two (shape x) = Ok (h, w) ->
  get_intermediate_layers (pretrained self) x (intermediate_layer_idx self)
  = Ok feats ->
  DPTHead_forward (depth_head self) feats (h / 14) (w / 14) = Ok depth ->
  shape depth = [b; c; hd; wd] ->
  (hd = h /\ wd = w ->
   DPT_DINOv2_forward self x = DPT_DINOv2_postprocess self depth)
  /\ (~ (hd = h /\ wd = w) ->
      DPT_DINOv2_forward self x
      = bind (F_interpolate depth [h; w]) (DPT_DINOv2_postprocess self)
      /\ F_interpolate depth [h; w] <> Ok depth).
Proof.
  intros Hx Hfeats Hdepth Hs.
  unfold DPT_DINOv2_forward; rewrite Hx; cbn [bind].
  rewrite Hfeats; cbn [bind]; rewrite Hdepth; cbn [bind].
  rewrite Hs; cbn [getitem nth_error bind].
  split.
  - intros [-> ->]; rewrite !Nat.eqb_refl; cbn [negb bind]; reflexivity.
  - intros Hne; split.
    + destruct (Nat.eqb_spec h hd) as [->|Hh]; cbn [negb bind]; [|reflexivity].
      destruct (Nat.eqb_spec w wd) as [->|Hw]; cbn [negb bind]; [|reflexivity].
      exfalso; apply Hne; split; reflexivity.
    + intros Heq; apply Hne.
      unfold F_interpolate in Heq; rewrite Hs in Heq.
      destruct ((hd =? 0) || (wd =? 0) || (h =? 0) || (w =? 0));
        [discriminate|].
      injection Heq as Heq; apply (f_equal shape) in Heq; rewrite Hs in Heq.
      cbn [shape] in Heq; injection Heq as -> ->; split; reflexivity.
Qed.


(** C10: with [metric_depth] false, two models that differ only in the
    [max_depth] given to the constructor return the same output on every
    input. *)
Theorem relative_output_ignores_max_depth
  (hub : string -> string -> Backbone) (sd : StateDict) (enc : string)
  (bn uc lh : bool) (maxd1 maxd2 : Q) (m1 m2 : DPT_DINOv2) (x : Tensor) :
  DPT_DINOv2_init hub sd enc bn uc lh false maxd1 = Ok m1 ->
  DPT_DINOv2_init hub sd enc bn uc lh false maxd2 = Ok m2 ->
  DPT_DINOv2_forward m1 x = DPT_DINOv2_forward m2 x.
Proof.
  intros H1 H2.
  destruct (DPT_DINOv2_init_max_depth _ _ _ _ _ _ _ _ _ _ _ H1 H2)
    as (Hidx & Hmd1 & Hmd2 & _ & _ & Hbb & Hhead).
  unfold DPT_DINOv2_forward, DPT_DINOv2_postprocess.
  rewrite Hidx, Hbb, Hhead, Hmd1, Hmd2; reflexivity.
Qed.

End Verification.

(** ** The operators and the model on concrete inputs *)

(** Aligned corners: the corner entries are kept, the others are averages. *)
Example F_interpolate_grid :
  entries (F_interpolate example_grid [3; 3])
    [(0, 0); (0, 1); (0, 2); (1, 0); (1, 1); (1, 2); (2, 0); (2, 1); (2, 2)]
  = Some [0; 1 # 2; 1; 1; 3 # 2; 2; 2; 5 # 2; 3]%Q.
Proof. vm_compute; reflexivity. Qed.

(** A 3x3 kernel of ones with padding 1 sums the whole 2x2 map everywhere. *)
Example conv2d_grid :
  entries (conv2d 1 1 3 1 1 (fun _ => 1%Q) (fun _ => 0%Q) example_grid)
    [(0, 0); (0, 1); (1, 0); (1, 1)]
  = Some [6; 6; 6; 6]%Q.
Proof. vm_compute; reflexivity. Qed.

(** A 2x2 transposed convolution of stride 2 writes one weighted copy of
    the kernel per input entry. *)
Example conv_transpose2d_grid :
  entries (conv_transpose2d 1 1 2 2 0
             (fun idx => match idx with
                         | [_; _; ki; kj] => inject_Z (Z.of_nat (10 * ki + kj + 1))
                         | _ => 0%Q
                         end)
             (fun _ => 0%Q) example_grid)
    [(0, 0); (0, 2); (0, 3); (1, 2); (3, 3)]
  = Some [0; 1; 2; 11; 36]%Q.
Proof. vm_compute; reflexivity. Qed.

(** The scenario of the specification: one 224x224 image, encoder [vits]. *)
Example forward_shape_224 :
  shape_of (m <- DPT_DINOv2_init example_hub example_state_dict "vits"
                   false false true true 10 ;;
            DPT_DINOv2_forward (act := rational_activations) m
              (example_image 1 224 224))
  = Ok [1; 224; 224].
Proof. vm_compute; reflexivity. Qed.

(** An input whose height is not a multiple of 14, on a backbone that
    accepts it: the decoder returns 14 rows and the wrapper resizes them
    to 15. *)
Example forward_shape_15 :
  shape_of
    (head <- DPTHead_init example_state_dict 1 8 4 false [2; 3; 4; 5] false false ;;
     DPT_DINOv2_forward (act := rational_activations)
       {| intermediate_layer_idx := LastLayers 4;
          metric_depth := false;
          max_depth := 20;
          encoder := "vits";
          pretrained :=
            {| embed_dim := 8;
               get_intermediate_layers := fun _ _ => Ok (example_features 2 8) |};
          depth_head := head |}
       (example_image 1 15 28))
  = Ok [1; 15; 28].
Proof. vm_compute; reflexivity. Qed.

(** A head with two classes: [forward] raises. *)
Example multiclass_forward_raises :
  shape_of (head <- DPTHead_init example_state_dict 2 8 4 false [2; 3; 4; 5]
                      false false ;;
            DPTHead_forward (act := rational_activations) head
              (example_features 6 8) 2 3)
  = Err AttributeError.
Proof. vm_compute; reflexivity. Qed.

(** ** The claims on concrete inputs *)


Lemma DPT_DINOv2_forward_output_shape_witness :
  exists model,
    DPT_DINOv2_init example_hub example_state_dict "vits" false true true true 10
    = Ok model
    /\ exists out,
         DPT_DINOv2_forward (act := rational_activations) model
           (example_image 1 224 224) = Ok out
         /\ shape out = [1; 224; 224].
Proof.
  eexists; split; [reflexivity|].
  apply (DPT_DINOv2_forward_output_shape (act := rational_activations)
           example_hub example_state_dict "vits" false true true true 10 _
           (example_image 1 224 224) 1 224 224).
  - reflexivity.
  - reflexivity.
  - lia.
  - lia.
  - lia.
  - reflexivity.
  - reflexivity.
  - split; [reflexivity | repeat constructor].
Defined.




Lemma DPTHead_forward_multiclass_raises_witness :
  exists head,
    DPTHead_init example_state_dict 2 8 4 false [2; 3; 4; 5] false false = Ok head
    /\ output_conv (scratch head) <> None
    /\ DPTHead_forward (act := rational_activations) head (example_features 6 8) 2 3
       = Err AttributeError.
Proof.
  eexists; split; [reflexivity|].
  apply (DPTHead_forward_multiclass_raises (act := rational_activations)
           example_state_dict 2 8 4 false 2 3 4 5 [] false false _
           (example_features 6 8) 1 2 3).
  - lia.
  - reflexivity.
  - reflexivity.
  - repeat constructor.
  - lia.
  - lia.
Defined.

Lemma DPTHead_resampled_sizes_witness :
  exists head,
    DPTHead_init example_state_dict 1 8 4 false [2; 3; 4; 5] true false = Ok head
    /\ exists l1 l2 l3 l4,
         DPTHead_layers (act := rational_activations) head 2 3 0
           (example_features 6 8) = Ok [l1; l2; l3; l4]
         /\ shape l1 = [1; 2; 8; 12]
         /\ shape l2 = [1; 3; 4; 6]
         /\ shape l3 = [1; 4; 2; 3]
         /\ shape l4 = [1; 5; 1; 2]
         /\ doubles l1 l2
         /\ doubles l2 l3
         /\ (doubles l3 l4 <-> Nat.even 2 = true /\ Nat.even 3 = true).
Proof.
  eexists; split; [reflexivity|].
  apply (DPTHead_resampled_sizes (act := rational_activations)
           example_state_dict 1 8 4 false 2 3 4 5 [] true false _
           (example_features 6 8) 1 2 3).
  - reflexivity.
  - reflexivity.
  - repeat constructor.
  - lia.
  - lia.
Defined.

(** The hierarchy is not strict on a 3x3 patch grid: the third map is 3x3
    and the fourth 2x2. *)
Lemma resampled_maps_no_strict_pyramid :
  exists head,
    DPTHead_init example_state_dict 1 8 4 false [2; 3; 4; 5] false false = Ok head
    /\ Forall (feature_ok 1 (3 * 3) 8) (example_features 9 8)
    /\ ~ returns (DPTHead_layers (act := rational_activations) head 3 3 0
                    (example_features 9 8)) strict_pyramid.
Proof.
  eexists; split; [reflexivity|].
  split; [repeat constructor|].
  intros H.
  destruct (returns_inv _ _ (DPTHead_layers_returns (act := rational_activations)
    example_state_dict 1 8 4 false 2 3 4 5 [] false false _ 3 3 1
    (example_features 9 8) eq_refl ltac:(lia) ltac:(lia) eq_refl
    ltac:(repeat constructor)))
    as (out & Eout & l1 & l2 & l3 & l4 & -> & _ & _ & S3 & S4).
  rewrite Eout in H; cbn [returns strict_pyramid] in H.
  destruct H as (_ & _ & H); unfold doubles in H; rewrite S3, S4 in H.
  discriminate H.
Qed.



Lemma DPTHead_forward_fusion_order_witness :
  exists head layer_1 layer_2 layer_3 layer_4
         layer_1_rn layer_2_rn layer_3_rn layer_4_rn
         path_4 path_3 path_2 path_1,
    DPTHead_init example_state_dict 1 8 4 false [2; 3; 4; 5] false true = Ok head
    /\ DPTHead_layers (act := rational_activations) head 3 3 0 (example_features 9 8)
       = Ok [layer_1; layer_2; layer_3; layer_4]
    /\ call (act := rational_activations) (layer1_rn (scratch head)) layer_1
       = Ok layer_1_rn
    /\ call (act := rational_activations) (layer2_rn (scratch head)) layer_2
       = Ok layer_2_rn
    /\ call (act := rational_activations) (layer3_rn (scratch head)) layer_3
       = Ok layer_3_rn
    /\ call (act := rational_activations) (layer4_rn (scratch head)) layer_4
       = Ok layer_4_rn
    /\ fuse (act := rational_activations) (refinenet4 (scratch head)) [layer_4_rn]
         (Some (spatial layer_3_rn)) = Ok path_4
    /\ spatial path_4 = spatial layer_3_rn
    /\ fuse (act := rational_activations) (refinenet3 (scratch head))
         [path_4; layer_3_rn] (Some (spatial layer_2_rn)) = Ok path_3
    /\ spatial path_3 = spatial layer_2_rn
    /\ fuse (act := rational_activations) (refinenet2 (scratch head))
         [path_3; layer_2_rn] (Some (spatial layer_1_rn)) = Ok path_2
    /\ spatial path_2 = spatial layer_1_rn
    /\ fuse (act := rational_activations) (refinenet1 (scratch head))
         [path_2; layer_1_rn] None = Ok path_1
    /\ DPTHead_forward (act := rational_activations) head (example_features 9 8) 3 3
       = DPTHead_output (act := rational_activations) (scratch head) path_1 3 3.
Proof.
  eexists.
  destruct (DPTHead_forward_fusion_order (act := rational_activations)
           example_state_dict 1 8 4 false 2 3 4 5 [] false true _
           (example_features 9 8) 1 3 3 eq_refl eq_refl
           ltac:(repeat constructor) ltac:(lia) ltac:(lia))
    as (l1 & l2 & l3 & l4 & r1 & r2 & r3 & r4 & p4 & p3 & p2 & p1 & H).
  exists l1, l2, l3, l4, r1, r2, r3, r4, p4, p3, p2, p1.
  split; [reflexivity | exact H].
Defined.

Lemma DPTHead_forward_depth_shape_witness :
  exists head,
    DPTHead_init example_state_dict 1 8 4 false [2; 3; 4; 5] true true = Ok head
    /\ exists out,
         DPTHead_forward (act := rational_activations) head (example_features 6 8) 2 3
         = Ok out
         /\ shape out = [1; 1; 14 * 2; 14 * 3].
Proof.
  eexists; split; [reflexivity|].
  apply (DPTHead_forward_depth_shape (act := rational_activations)
           example_state_dict 8 4 false 2 3 4 5 [] true true _
           (example_features 6 8) 1 2 3).
  - reflexivity.
  - reflexivity.
  - repeat constructor.
  - lia.
  - lia.
Defined.

Lemma relative_output_ignores_max_depth_witness :
  exists m1 m2,
    DPT_DINOv2_init example_hub example_state_dict "vitl" false false true false 20
    = Ok m1
    /\ DPT_DINOv2_init example_hub example_state_dict "vitl" false false true false 80
       = Ok m2
    /\ DPT_DINOv2_forward (act := rational_activations) m1 (example_image 2 14 14)
       = DPT_DINOv2_forward (act := rational_activations) m2 (example_image 2 14 14).
Proof.
  eexists; eexists; split; [reflexivity|]; split; [reflexivity|].
  apply (relative_output_ignores_max_depth (act := rational_activations)
           example_hub example_state_dict "vitl" false false true 20 80);
    reflexivity.
Defined.


(** The hypothesis on the backbone is needed: with a backbone whose answer
    depends on the hidden state, the first invocation returns a map and the
    second, on the same input and with the same weights, raises. *)
Example stateful_backbone_answers_differ :
  exists self,
    DPT_DINOv2_init example_hub example_state_dict "vits" false false true true 10
    = Ok self
    /\ shape_of (fst (DPT_DINOv2_invoke (act := rational_activations)
                        (one_shot_backbone 384) self 0 (example_image 1 14 14)))
       = Ok [1; 14; 14]
    /\ fst (DPT_DINOv2_invoke (act := rational_activations) (one_shot_backbone 384)
              self
              (snd (DPT_DINOv2_invoke (act := rational_activations)
                      (one_shot_backbone 384) self 0 (example_image 1 14 14)))
              (example_image 1 14 14))
       = Err RuntimeError.
Proof.
  eexists; split; [reflexivity|].
  split; [vm_compute; reflexivity | reflexivity].
Qed.

Lemma DPT_DINOv2_forward_resize_iff_witness :
  exists self feats depth,
    DPT_DINOv2_init example_hub example_state_dict "vits" false false true false 20
    = Ok self
    /\ get_intermediate_layers (pretrained self) (example_image 1 14 28)
         (intermediate_layer_idx self) = Ok feats
    /\ DPTHead_forward (act := rational_activations) (depth_head self) feats
         (14 / 14) (28 / 14) = Ok depth
    /\ (14 = 14 /\ 28 = 28 ->
        DPT_DINOv2_forward (act := rational_activations) self (example_image 1 14 28)
        = DPT_DINOv2_postprocess self depth)
    /\ (~ (14 = 14 /\ 28 = 28) ->
        DPT_DINOv2_forward (act := rational_activations) self (example_image 1 14 28)
        = bind (F_interpolate depth [14; 28]) (DPT_DINOv2_postprocess self)
        /\ F_interpolate depth [14; 28] <> Ok depth).
Proof.
  eexists.
  destruct (DPT_DINOv2_forward_valid (act := rational_activations)
              example_hub example_state_dict "vits" false false true false 20 _
              (example_image 1 14 28) 1 14 28 eq_refl eq_refl
              ltac:(lia) ltac:(lia) eq_refl eq_refl
              ltac:(split; [reflexivity | repeat constructor]))
    as (feats & depth & z & Hfeats & Hdepth & Sdepth & _ & _).
  exists feats, depth.
  split; [reflexivity|].
  split; [exact Hfeats|].
  split; [exact Hdepth|].
  apply (DPT_DINOv2_forward_resize_iff (act := rational_activations)
           _ (example_image 1 14 28) feats depth 14 28 1 1 14 28);
    [reflexivity | exact Hfeats | exact Hdepth | exact Sdepth].
Defined.

(** ** Further properties of the constructors *)

Lemma mapi_from_length {A B : Type} (f : nat -> A -> B) (i : nat) (xs : list A) :
  List.length (mapi_from f i xs) = List.length xs.
Proof.
  revert i; induction xs as [|x xs IH]; intros i; simpl; [|rewrite IH]; reflexivity.
Qed.

(** X1: [DPT_DINOv2.__init__] builds a model exactly for the six encoder
    names of its assertion, and raises [AssertionError] for every other
    name; no name reaches a missing key of [_SETTINGS] or a missing width. *)
Theorem DPT_DINOv2_init_encoder_names
  (hub : string -> string -> Backbone) (sd : StateDict) (enc : string)
  (bn uc lh md : bool) (maxd : Q) :
  (In enc encoder_names
   /\ exists model,
        DPT_DINOv2_init hub sd enc bn uc lh md maxd = Ok model
        /\ encoder model = enc
        /\ nclass (depth_head model) = 1
        /\ List.length (projects (depth_head model)) = 4)
  \/ (~ In enc encoder_names
      /\ DPT_DINOv2_init hub sd enc bn uc lh md maxd = Err AssertionError).
Proof.
  destruct (in_dec string_dec enc encoder_names) as [Hin|Hout].
  - left; split; [exact Hin|].
    unfold encoder_names in Hin; simpl in Hin.
    destruct Hin as [<-|[<-|[<-|[<-|[<-|[<-|[]]]]]]];
      (eexists; split; [reflexivity | repeat split]).
  - right; split; [exact Hout|].
    unfold DPT_DINOv2_init.
    destruct (existsb (String.eqb enc)
                ["vits"; "vitb"; "vitl"; "v2_vits"; "v2_vitb"; "v2_vitl"]%string)
      eqn:Hex; [|reflexivity].
    apply existsb_exists in Hex; destruct Hex as (e & Hin & Heq).
    apply String.eqb_eq in Heq; subst e; contradiction.
Qed.

(** X2: a [v2_] encoder name loads the same backbone entry and builds the
    same decoder as the name without the prefix; the two models differ only
    in the selection of the intermediate layers, the last four layers for
    the plain name and four listed indices for the [v2_] name. *)
Theorem v2_encoder_shares_backbone_and_decoder
  (hub : string -> string -> Backbone) (sd : StateDict) (size : string)
  (bn uc lh md : bool) (maxd : Q) (m1 m2 : DPT_DINOv2) :
  In size ["vits"; "vitb"; "vitl"]%string ->
  DPT_DINOv2_init hub sd size bn uc lh md maxd = Ok m1 ->
  DPT_DINOv2_init hub sd ("v2_" ++ size) bn uc lh md maxd = Ok m2 ->
  pretrained m2 = pretrained m1
  /\ depth_head m2 = depth_head m1
  /\ metric_depth m2 = metric_depth m1
  /\ max_depth m2 = max_depth m1
  /\ intermediate_layer_idx m1 = LastLayers 4
  /\ exists idx,
       intermediate_layer_idx m2 = LayerIndices idx /\ List.length idx = 4.
Proof.
  intros Hin H1 H2; simpl in Hin.
  destruct Hin as [<-|[<-|[<-|[]]]];
    unfold DPT_DINOv2_init in H1, H2;
    cbn [existsb String.eqb Ascii.eqb Bool.eqb orb negb dict_get _SETTINGS bind
         String.append] in H1, H2;
    match type of H1 with
    | context [DPTHead_init ?s ?n ?d ?f ?b ?o ?u ?m] =>
        destruct (DPTHead_init s n d f b o u m) as [head1|e1] eqn:E1
    end; cbn [bind] in H1; try discriminate;
    match type of H2 with
    | context [DPTHead_init ?s ?n ?d ?f ?b ?o ?u ?m] =>
        destruct (DPTHead_init s n d f b o u m) as [head2|e2] eqn:E2
    end; cbn [bind] in H2; try discriminate;
    injection H1 as <-; injection H2 as <-;
    cbn [pretrained depth_head metric_depth max_depth intermediate_layer_idx];
    cbv in E1, E2; 
    repeat split; try congruence;
    eexists; split; reflexivity.
Qed.

(** X3: [DPTHead.__init__] builds a head exactly when [out_channels] has at
    least four entries, with one projection per entry; with fewer it raises
    [IndexError]. *)
Theorem DPTHead_init_out_channels
  (sd : StateDict) (n D F : nat) (bn : bool) (ocs : list nat) (uc md : bool) :
  (4 <= List.length ocs
   /\ exists head,
        DPTHead_init sd n D F bn ocs uc md = Ok head
        /\ List.length (projects head) = List.length ocs
        /\ List.length (resize_layers head) = 4
        /\ (readout_projects head <> None <-> uc = true))
  \/ (List.length ocs < 4
      /\ DPTHead_init sd n D F bn ocs uc md = Err IndexError).
Proof.
  destruct ocs as [|c0 [|c1 [|c2 [|c3 rest]]]];
    try (right; split; [simpl; lia | reflexivity]).
  left; split; [simpl; lia|].
  eexists; split; [reflexivity|].
  cbn [projects resize_layers readout_projects].
  split; [apply mapi_from_length|].
  split; [reflexivity|].
  destruct uc; split; intros H; try reflexivity; try discriminate.
  contradiction.
Qed.

(** ** Bilinear interpolation with aligned corners *)







(** An output position whose source coordinates are whole takes the entry
    of the input at those coordinates. *)
Lemma F_interpolate_exact (t r : Tensor) (ho wo : nat) (b c h w : nat)
  (n k i j y x : nat) :
  shape t = [b; c; h; w] ->
  F_interpolate t [ho; wo] = Ok r ->
  (src_coord h ho i == inject_Z (Z.of_nat y))%Q -> y <= h - 1 ->
  (src_coord w wo j == inject_Z (Z.of_nat x))%Q -> x <= w - 1 ->
  (data r [n; k; i; j] == data t [n; k; y; x])%Q.
Proof.
  intros Hs Hr Hy Hyh Hx Hxw; unfold F_interpolate in Hr; rewrite Hs in Hr.
  destruct ((h =? 0) || (w =? 0) || (ho =? 0) || (wo =? 0)); [discriminate|].
  injection Hr as <-; cbn [data].
  assert (Hwhole : forall m o v : nat, forall q : Q,
            (q == inject_Z (Z.of_nat v))%Q -> v <= m - 1 ->
            lower_index m q = v /\ (frac m q == 0)%Q).
  { intros m o v q Hq Hv.
    assert (Hl : lower_index m q = v).
    { unfold lower_index; rewrite Hq, Qfloor_Z, Nat2Z.id; lia. }
    split; [exact Hl|].
    unfold frac; rewrite Hl, Hq; ring. }
  destruct (Hwhole h i y _ Hy Hyh) as [Hy0 Hly].
  destruct (Hwhole w j x _ Hx Hxw) as [Hx0 Hlx].
  rewrite Hy0, Hx0, Hly, Hlx; ring.
Qed.

Lemma src_coord_same (m o : nat) :
  o < m -> (src_coord m m o == inject_Z (Z.of_nat o))%Q.
Proof.
  intros Ho; unfold src_coord.
  destruct (Nat.leb_spec m 1) as [Hm|Hm].
  - replace o with 0 by lia; reflexivity.
  - apply Qdiv_mult_l.
    change 0%Q with (inject_Z 0); rewrite inject_Z_injective; lia.
Qed.



(** X9: a bilinear aligned-corners resize to the size the map already has
    returns the same entries, so the comparison of sizes in
    [DPT_DINOv2.forward] only skips a resize that would change nothing. *)
Theorem F_interpolate_same_size (t : Tensor) (b c h w : nat) :
  shape t = [b; c; h; w] -> 1 <= h -> 1 <= w ->
  exists r,
    F_interpolate t [h; w] = Ok r
    /\ shape r = shape t
    /\ forall n k i j, i < h -> j < w ->
         (data r [n; k; i; j] == data t [n; k; i; j])%Q.
Proof.
  intros Hs Hh Hw.
  destruct (returns_inv _ _ (F_interpolate_returns t b c h w h w Hs Hh Hw Hh Hw))
    as (r & Er & Sr).
  exists r; split; [exact Er|]; split; [rewrite Hs; exact Sr|].
  intros n k i j Hi Hj.
  apply (F_interpolate_exact t r h w b c h w n k i j i j Hs Er);
    [apply src_coord_same; exact Hi | lia | apply src_coord_same; exact Hj | lia].
Qed.


(** ** The readout and the patch grid *)

(** X16: the readout input of [DPTHead.forward], [torch.cat((x, readout),
    -1)] with [readout = cls_token.unsqueeze(1).expand_as(x)], has shape
    [(batch, cells, 2 * width)]; the first half of every row is the patch
    token and the second half is the class token of the same image. *)
Theorem readout_concatenates_class_token (x cls : Tensor) (b cells d : nat) :
  shape x = [b; cells; d] -> shape cls = [b; d] ->
  exists k,
    (u <- unsqueeze_1 cls ;; readout <- expand_as u x ;; cat_last x readout) = Ok k
    /\ shape k = [b; cells; 2 * d]
    /\ forall i p j, i < b -> j < d ->
         data k [i; p; j] = data x [i; p; j]
         /\ data k [i; p; d + j] = data cls [i; j].
Proof.
  intros Hx Hcls.
  unfold unsqueeze_1; rewrite Hcls; cbn [bind].
  unfold expand_as; cbn [shape]; rewrite Hx; cbn [expandable].
  rewrite !Nat.eqb_refl, orb_true_r; cbn [andb orb bind].
  unfold cat_last; cbn [shape]; rewrite Hx; cbn [rev app].
  destruct (list_eq_dec Nat.eq_dec [cells; b] [cells; b]) as [_|Hne];
    [|contradiction].
  eexists; split; [reflexivity|].
  split; [cbn [shape rev app]; do 3 f_equal; lia|].
  intros i p j Hi Hj; cbn [data last removelast app expand_index].
  destruct (Nat.ltb_spec j d) as [_|]; [|lia].
  destruct (Nat.ltb_spec (d + j) d) as [|_]; [lia|].
  split; [reflexivity|].
  replace (d + j - d) with j by lia.
  destruct (Nat.eqb_spec b 1) as [->|_]; destruct (Nat.eqb_spec d 1) as [->|_];
    repeat f_equal; lia.
Qed.

(** X17: the reshape of [DPTHead.forward] reads the tokens in row-major
    order: on tokens of shape [(batch, patch_h * patch_w, width)],
    [x.permute(0, 2, 1).reshape((batch, width, patch_h, patch_w))] puts
    channel [c] of token [r * patch_w + s] at row [r] and column [s]. *)
Theorem tokens_fill_patch_grid_row_major (x : Tensor) (b ph pw d : nat) :
  shape x = [b; ph * pw; d] ->
  exists y,
    (p <- permute_0_2_1 x ;; reshape p [b; d; ph; pw]) = Ok y
    /\ shape y = [b; d; ph; pw]
    /\ forall i c r s, i < b -> c < d -> r < ph -> s < pw ->
         data y [i; c; r; s] = data x [i; r * pw + s; c].
Proof.
  intros Hx.
  unfold permute_0_2_1; rewrite Hx; cbn [bind].
  unfold reshape; cbn [shape].
  assert (Hnum : numel [b; d; ph * pw] = numel [b; d; ph; pw]) by (simpl; ring).
  rewrite Hnum, Nat.eqb_refl.
  eexists; split; [reflexivity|]; split; [reflexivity|].
  intros i c r s Hi Hc Hr Hs; cbn [data].
  unfold ravel, unravel; cbn [combine fold_left fst snd rev app unravel_rev].
  set (m := (((0 * b + i) * d + c) * ph + r) * pw + s).
  assert (Hm : m = (i * d + c) * (ph * pw) + (r * pw + s)) by (unfold m; ring).
  assert (Hcell : r * pw + s < ph * pw) by nia.
  assert (E1 : m mod (ph * pw) = r * pw + s).
  { symmetry; apply (Nat.mod_unique m (ph * pw) (i * d + c)); [exact Hcell | lia]. }
  assert (E2 : m / (ph * pw) = i * d + c).
  { symmetry; apply (Nat.div_unique m (ph * pw) (i * d + c) (r * pw + s));
      [exact Hcell | lia]. }
  assert (E3 : (i * d + c) mod d = c).
  { symmetry; apply (Nat.mod_unique (i * d + c) d i); [exact Hc | lia]. }
  assert (E4 : (i * d + c) / d = i).
  { symmetry; apply (Nat.div_unique (i * d + c) d i c); [exact Hc | lia]. }
  rewrite E1, E2, E3, E4, (Nat.mod_small i b Hi); reflexivity.
Qed.

(** ** Locality of the projections and of the resamplers *)

Lemma sumQ_ext (n : nat) (f g : nat -> Q) :
  (forall i, i < n -> f i = g i) -> sumQ n f = sumQ n g.
Proof.
  intros H; unfold sumQ.
  assert (Hseq : forall l, (forall i, In i l -> f i = g i) ->
            fold_right (fun i acc => (f i + acc)%Q) 0%Q l
            = fold_right (fun i acc => (g i + acc)%Q) 0%Q l).
  { induction l as [|a l IH]; intros Hl; [reflexivity|].
    simpl; rewrite (Hl a (or_introl eq_refl)), IH; [reflexivity|].
    intros i Hi; apply Hl; right; exact Hi. }
  apply Hseq; intros i Hi; apply in_seq in Hi; apply H; lia.
Qed.

Lemma projects_are_1x1 (sd : StateDict) (D : nat) (ocs : list nat) (i : nat)
  (proj : Module) :
  In proj (mapi_from (fun i oc =>
             nn_Conv2d (scope ("projects." ++ index_name i ++ ".") sd) D oc 1 1 0)
             i ocs) ->
  exists sd' oc, proj = nn_Conv2d sd' D oc 1 1 0.
Proof.
  revert i; induction ocs as [|oc ocs IH]; intros i Hin; [contradiction|].
  destruct Hin as [<-|Hin]; [eexists; eexists; reflexivity | exact (IH _ Hin)].
Qed.

Lemma transposed_source_block (h k y ki i : nat) :
  ki < k -> transposed_source h k 0 y ki = Some i -> i = y / k.
Proof.
  intros Hki; unfold transposed_source.
  destruct (Nat.leb_spec ki (y + 0)) as [Hle|]; [|discriminate].
  destruct (Nat.eqb_spec ((y + 0 - ki) mod k) 0) as [Hmod|]; [|discriminate].
  destruct ((y + 0 - ki) / k <? h); [|discriminate].
  cbn [andb]; intros H; injection H as <-.
  pose proof (Nat.div_mod_eq (y + 0 - ki) k) as Hdm; rewrite Hmod in Hdm.
  apply (Nat.div_unique y k ((y + 0 - ki) / k) ki); [exact Hki | lia].
Qed.

Lemma conv_transpose2d_block (c cout k : nat) (wt bs : list nat -> Q)
  (x1 x2 y1 y2 : Tensor) (n y x : nat) :
  shape x1 = shape x2 ->
  (forall ci, data x1 [n; ci; y / k; x / k] = data x2 [n; ci; y / k; x / k]) ->
  conv_transpose2d c cout k k 0 wt bs x1 = Ok y1 ->
  conv_transpose2d c cout k k 0 wt bs x2 = Ok y2 ->
  forall co, data y1 [n; co; y; x] = data y2 [n; co; y; x].
Proof.
  intros Hs Hcell H1 H2 co; unfold conv_transpose2d in H1, H2.
  rewrite <- Hs in H2.
  destruct (shape x1) as [|b [|c' [|h [|w [|? ?]]]]]; try discriminate.
  match type of H1 with
  | (if ?cond then _ else _) = _ => destruct cond; [discriminate|]
  end.
  injection H1 as <-; injection H2 as <-; cbn [data].
  f_equal; apply sumQ_ext; intros ci _.
  apply sumQ_ext; intros ki Hki; apply sumQ_ext; intros kj Hkj.
  destruct (transposed_source h k 0 y ki) as [i|] eqn:Ei; [|reflexivity].
  destruct (transposed_source w k 0 x kj) as [j|] eqn:Ej; [|reflexivity].
  rewrite (transposed_source_block h k y ki i Hki Ei).
  rewrite (transposed_source_block w k x kj j Hkj Ej).
  rewrite Hcell; reflexivity.
Qed.


Section Further.

Context {act : Activations}.

(** ** Further properties of the decoder *)

(** The loop on at most four well-formed entries returns one map per entry. *)
Lemma DPTHead_layers_prefix (sd : StateDict) (n D F : nat) (bn : bool)
  (c0 c1 c2 c3 : nat) (rest : list nat) (uc md : bool) (head : DPTHead)
  (ph pw b : nat) (feats : list Feature) (i : nat) :
  DPTHead_init sd n D F bn (c0 :: c1 :: c2 :: c3 :: rest) uc md = Ok head ->
  1 <= ph -> 1 <= pw ->
  Forall (feature_ok b (ph * pw) D) feats ->
  i + List.length feats <= 4 ->
  returns (DPTHead_layers head ph pw i feats)
          (fun out => List.length out = List.length feats).
Proof.
  intros Hinit Hph Hpw Hok; revert i.
  induction Hok as [|f feats Hf Hok IH]; intros i Hi; [reflexivity|].
  cbn [DPTHead_layers List.length] in *.
  assert (Hc : exists c, nth_error [c0; c1; c2; c3] i = Some c).
  { destruct i as [|[|[|[|i]]]]; [eexists; reflexivity ..|lia]. }
  destruct Hc as (c & Hc).
  eapply returns_bind;
    [exact (DPTHead_layer_returns _ _ _ _ _ _ _ _ _ _ _ _ _ _ _ _ _ _ _
              Hinit Hph Hpw Hf Hc) | intros y _].
  eapply returns_bind; [apply (IH (S i)); lia | intros ys Hys].
  simpl; rewrite Hys; reflexivity.
Qed.

(** There is no fifth resampler: the body of the loop raises at index 4. *)
Lemma DPTHead_layer_fifth (sd : StateDict) (n D F : nat) (bn : bool)
  (c0 c1 c2 c3 : nat) (rest : list nat) (uc md : bool) (head : DPTHead)
  (ph pw b : nat) (f : Feature) :
  DPTHead_init sd n D F bn (c0 :: c1 :: c2 :: c3 :: rest) uc md = Ok head ->
  1 <= ph -> 1 <= pw ->
  feature_ok b (ph * pw) D f ->
  DPTHead_layer head ph pw 4 f = Err IndexError.
Proof.
  intros Hinit Hph Hpw [Hx Hcls].
  unfold DPTHead_init in Hinit; cbn in Hinit; injection Hinit as <-.
  unfold DPTHead_layer; cbn [use_clstoken projects resize_layers readout_projects].
  destruct f as [x cls]; cbn [fst snd] in *.
  assert (Hreadout : forall sd' k, shape k = [b; ph * pw; D + D] ->
            exists x', Module_forward
                         (Sequential [nn_Linear sd' (D + (D + 0)) D; GELU]) k = Ok x'
                       /\ shape x' = [b; ph * pw; D]).
  { intros sd' k Hk; change (D + (D + 0)) with (2 * D).
    apply returns_inv, readout_returns; rewrite Hk.
    do 3 f_equal; lia. }
  assert (Htail : forall x' : Tensor, shape x' = [b; ph * pw; D] ->
            exists p y, permute_0_2_1 x' = Ok p
                        /\ reshape p [b; D; ph; pw] = Ok y
                        /\ shape y = [b; D; ph; pw]).
  { intros x' Hx'.
    destruct (returns_inv _ _ (permute_0_2_1_returns x' b (ph * pw) D Hx'))
      as (p & Ep & Sp).
    assert (Hnum : numel (shape p) = numel [b; D; ph; pw])
      by (unfold has_shape in Sp; rewrite Sp; simpl; ring).
    destruct (returns_inv _ _ (reshape_returns p [b; D; ph; pw] Hnum))
      as (y & Ey & Sy).
    exists p, y; repeat split; assumption. }
  destruct uc.
  - destruct (returns_inv _ _ (unsqueeze_1_returns cls b [D] Hcls)) as (u & Eu & Su).
    destruct (returns_inv _ _ (expand_as_returns u x b (ph * pw) D Su Hx))
      as (r & Er & Sr).
    destruct (returns_inv _ _ (cat_last_returns x r [b; ph * pw] D D Hx Sr))
      as (k & Ek & Sk).
    rewrite Eu; cbn [bind]; rewrite Er; cbn [bind getattr].
    destruct rest as [|c4 rest]; [reflexivity|].
    cbn [getitem nth_error mapi_from List.length seq map bind].
    rewrite Ek; cbn [bind].
    match goal with
    | |- context [Module_forward (Sequential [nn_Linear ?s _ _; GELU]) k] =>
        destruct (Hreadout s k Sk) as (x' & Ex' & Sx')
    end; rewrite Ex'; cbn [bind].
    destruct (Htail x' Sx') as (p & y & Ep & Ey & Sy).
    rewrite Ep; cbn [bind]; rewrite Sx'; cbn [getitem nth_error rev app bind].
    rewrite Ey; cbn [bind].
    match goal with
    | |- context [Module_forward (nn_Conv2d ?s D c4 1 1 0) y] =>
        destruct (returns_inv _ _ (Conv2d_1_1_0_returns s D c4 y b ph pw Sy Hph Hpw))
          as (z & Ez & _)
    end.
    rewrite Ez; reflexivity.
  - cbn [bind].
    destruct (Htail x Hx) as (p & y & Ep & Ey & Sy).
    rewrite Ep; cbn [bind]; rewrite Hx; cbn [getitem nth_error rev app bind].
    rewrite Ey; cbn [bind].
    destruct rest as [|c4 rest]; [reflexivity|].
    cbn [mapi_from getitem nth_error bind].
    match goal with
    | |- context [Module_forward (nn_Conv2d ?s D c4 1 1 0) y] =>
        destruct (returns_inv _ _ (Conv2d_1_1_0_returns s D c4 y b ph pw Sy Hph Hpw))
          as (z & Ez & _)
    end.
    rewrite Ez; reflexivity.
Qed.

(** X4: [DPTHead.forward] needs exactly four entries.  On fewer than four
    well-formed entries the unpacking of the resampled maps raises
    [ValueError]; on more than four the loop raises [IndexError] at the
    fifth entry. *)
Theorem DPTHead_forward_entry_count
  (sd : StateDict) (n D F : nat) (bn : bool) (c0 c1 c2 c3 : nat)
  (rest : list nat) (uc md : bool) (head : DPTHead)
  (feats : list Feature) (b ph pw : nat) :
  DPTHead_init sd n D F bn (c0 :: c1 :: c2 :: c3 :: rest) uc md = Ok head ->
  Forall (feature_ok b (ph * pw) D) feats ->
  1 <= ph -> 1 <= pw ->
  List.length feats <> 4 ->
  DPTHead_forward head feats ph pw
  = Err (if List.length feats <? 4 then ValueError else IndexError).
Proof.
  intros Hinit Hok Hph Hpw Hlen.
  destruct (Nat.ltb_spec (List.length feats) 4) as [Hlt|Hge].
  - destruct (returns_inv _ _ (DPTHead_layers_prefix _ _ _ _ _ _ _ _ _ _ _ _ _
                ph pw b feats 0 Hinit Hph Hpw Hok ltac:(lia)))
      as (out & Eout & Hout).
    unfold DPTHead_forward; rewrite Eout; cbn [bind].
    destruct out as [|l1 [|l2 [|l3 [|l4 [|l5 out]]]]]; try reflexivity;
      simpl in Hout; lia.
  - destruct feats as [|f0 [|f1 [|f2 [|f3 [|f4 more]]]]]; simpl in Hlen, Hge;
      try lia.
    inversion Hok as [|? ? H0 Hok1]; subst.
    inversion Hok1 as [|? ? H1 Hok2]; subst.
    inversion Hok2 as [|? ? H2 Hok3]; subst.
    inversion Hok3 as [|? ? H3 Hok4]; subst.
    inversion Hok4 as [|? ? H4 _]; subst.
    destruct (returns_inv _ _ (DPTHead_layer_returns _ _ _ _ _ _ _ _ _ _ _ _ _
                ph pw b 0 f0 c0 Hinit Hph Hpw H0 eq_refl)) as (l1 & E1 & _).
    destruct (returns_inv _ _ (DPTHead_layer_returns _ _ _ _ _ _ _ _ _ _ _ _ _
                ph pw b 1 f1 c1 Hinit Hph Hpw H1 eq_refl)) as (l2 & E2 & _).
    destruct (returns_inv _ _ (DPTHead_layer_returns _ _ _ _ _ _ _ _ _ _ _ _ _
                ph pw b 2 f2 c2 Hinit Hph Hpw H2 eq_refl)) as (l3 & E3 & _).
    destruct (returns_inv _ _ (DPTHead_layer_returns _ _ _ _ _ _ _ _ _ _ _ _ _
                ph pw b 3 f3 c3 Hinit Hph Hpw H3 eq_refl)) as (l4 & E4 & _).
    unfold DPTHead_forward; cbn [DPTHead_layers].
    rewrite E1, E2, E3, E4; cbn [bind].
    rewrite (DPTHead_layer_fifth _ _ _ _ _ _ _ _ _ _ _ _ _ ph pw b f4
               Hinit Hph Hpw H4).
    reflexivity.
Qed.



(** X5: when the first entry does not have [patch_h * patch_w] tokens, the
    reshape into the patch grid fails and [DPTHead.forward] raises
    [RuntimeError], with or without the class-token readout. *)
Theorem DPTHead_forward_grid_mismatch
  (sd : StateDict) (n D F : nat) (bn : bool) (c0 c1 c2 c3 : nat)
  (rest : list nat) (uc md : bool) (head : DPTHead)
  (f : Feature) (more : list Feature) (b cells ph pw : nat) :
  DPTHead_init sd n D F bn (c0 :: c1 :: c2 :: c3 :: rest) uc md = Ok head ->
  feature_ok b cells D f ->
  cells <> ph * pw -> 1 <= b -> 1 <= D ->
  DPTHead_forward head (f :: more) ph pw = Err RuntimeError.
Proof.
  intros Hinit [Hx Hcls] Hcells Hb HD.
  unfold DPTHead_init in Hinit; cbn in Hinit; injection Hinit as <-.
  unfold DPTHead_forward; cbn [DPTHead_layers]; unfold DPTHead_layer.
  cbn [use_clstoken projects resize_layers readout_projects].
  destruct f as [x cls]; cbn [fst snd] in *.
  assert (Htail : forall x' : Tensor, shape x' = [b; cells; D] ->
            exists p, permute_0_2_1 x' = Ok p
                      /\ reshape p [b; D; ph; pw] = Err RuntimeError).
  { intros x' Hx'.
    destruct (returns_inv _ _ (permute_0_2_1_returns x' b cells D Hx'))
      as (p & Ep & Sp).
    exists p; split; [exact Ep|].
    unfold reshape; unfold has_shape in Sp; rewrite Sp.
    destruct (Nat.eqb_spec (numel [b; D; cells]) (numel [b; D; ph; pw]))
      as [Heq|_]; [|reflexivity].
    exfalso; apply Hcells; simpl in Heq.
    rewrite !Nat.mul_1_r in Heq.
    apply Nat.mul_cancel_l in Heq; [|lia].
    apply Nat.mul_cancel_l in Heq; [exact Heq | lia]. }
  destruct uc.
  - destruct (returns_inv _ _ (unsqueeze_1_returns cls b [D] Hcls)) as (u & Eu & Su).
    destruct (returns_inv _ _ (expand_as_returns u x b cells D Su Hx))
      as (r & Er & Sr).
    destruct (returns_inv _ _ (cat_last_returns x r [b; cells] D D Hx Sr))
      as (k & Ek & Sk).
    rewrite Eu; cbn [bind]; rewrite Er; cbn [bind getattr getitem nth_error].
    rewrite Ek; cbn [bind].
    change (D + (D + 0)) with (2 * D).
    match goal with
    | |- context [Module_forward (Sequential [nn_Linear ?s _ _; GELU]) k] =>
        destruct (returns_inv _ _ (readout_returns s D k b cells
                    ltac:(unfold has_shape in Sk; rewrite Sk; simpl;
                          do 3 f_equal; lia)))
          as (x' & Ex' & Sx')
    end.
    rewrite Ex'; cbn [bind]; unfold has_shape in Sx'.
    destruct (Htail x' Sx') as (p & Ep & Er').
    rewrite Ep; cbn [bind]; rewrite !Sx'; cbn [getitem nth_error rev app bind].
    rewrite Er'; reflexivity.
  - cbn [bind].
    destruct (Htail x Hx) as (p & Ep & Er').
    rewrite Ep; cbn [bind]; rewrite Hx; cbn [getitem nth_error rev app bind].
    rewrite Er'; reflexivity.
Qed.

Lemma DPTHead_layers_without_readout (head : DPTHead) (ph pw : nat)
  (feats1 feats2 : list Feature) (i : nat) :
  use_clstoken head = false ->
  map fst feats1 = map fst feats2 ->
  DPTHead_layers head ph pw i feats1 = DPTHead_layers head ph pw i feats2.
Proof.
  intros Huc; revert feats2 i.
  induction feats1 as [|[x1 k1] feats1 IH]; intros [|[x2 k2] feats2] i Hmap;
    try discriminate; [reflexivity|].
  simpl in Hmap; injection Hmap as -> Hmap.
  cbn [DPTHead_layers]; rewrite (IH feats2 (S i) Hmap).
  unfold DPTHead_layer; rewrite Huc; reflexivity.
Qed.

(** X6: a head without the class-token readout never reads the class
    tokens: two lists of entries with the same patch tokens give the same
    result of [DPTHead.forward], whatever their class tokens are. *)
Theorem DPTHead_forward_ignores_class_tokens
  (head : DPTHead) (feats1 feats2 : list Feature) (ph pw : nat) :
  use_clstoken head = false ->
  map fst feats1 = map fst feats2 ->
  DPTHead_forward head feats1 ph pw = DPTHead_forward head feats2 ph pw.
Proof.
  intros Huc Hmap; unfold DPTHead_forward.
  rewrite (DPTHead_layers_without_readout head ph pw feats1 feats2 0 Huc Hmap).
  reflexivity.
Qed.

(** X7: the depth head does not depend on the resolution of the fused map:
    from a map of the fusion width and of any positive size it returns one
    channel at [(14 * patch_h, 14 * patch_w)]. *)
Theorem DPTHead_output_any_resolution
  (sd : StateDict) (n D F : nat) (bn : bool) (c0 c1 c2 c3 : nat)
  (rest : list nat) (uc md : bool) (head : DPTHead)
  (path_1 : Tensor) (b h w ph pw : nat) :
  DPTHead_init sd n D F bn (c0 :: c1 :: c2 :: c3 :: rest) uc md = Ok head ->
  n <= 1 ->
  shape path_1 = [b; F; h; w] -> 1 <= h -> 1 <= w -> 1 <= ph -> 1 <= pw ->
  exists out,
    DPTHead_output (scratch head) path_1 ph pw = Ok out
    /\ shape out = [b; 1; 14 * ph; 14 * pw].
Proof.
  intros Hinit Hn Hp Hh Hw Hph Hpw.
  destruct (returns_inv _ _ (DPTHead_output_returns _ _ _ _ _ _ _ _ _ _ _ _ _
              path_1 b h w ph pw Hinit Hn Hp Hh Hw Hph Hpw))
    as (out & Eout & Sout & _).
  exists out; split; [exact Eout|].
  rewrite Sout, (Nat.mul_comm ph), (Nat.mul_comm pw); reflexivity.
Qed.



(** ** What the decoder and the wrapper return, whenever they return *)

Lemma bind_Ok_inv {A B : Type} (r : result A) (f : A -> result B) (b : B) :
  bind r f = Ok b -> exists a, r = Ok a /\ f a = Ok b.
Proof.
  destruct r as [a|e]; simpl; [intros H; exists a; auto | discriminate].
Qed.

Lemma conv2d_Ok_inv (cin cout k s p : nat) (wt bs : list nat -> Q)
  (x y : Tensor) :
  conv2d cin cout k s p wt bs x = Ok y ->
  exists b h w,
    shape x = [b; cin; h; w]
    /\ shape y = [b; cout; conv2d_out h k s p; conv2d_out w k s p].
Proof.
  unfold conv2d.
  destruct (shape x) as [|b [|c [|h [|w [|? ?]]]]]; try discriminate.
  destruct (Nat.eqb_spec c cin) as [->|]; [|discriminate].
  destruct (negb true || (s =? 0) || (h + 2 * p <? k) || (w + 2 * p <? k));
    [discriminate|].
  intros H; injection H as <-; exists b, h, w; split; reflexivity.
Qed.

Lemma F_interpolate_Ok_inv (x : Tensor) (ho wo : nat) (y : Tensor) :
  F_interpolate x [ho; wo] = Ok y ->
  exists b c h w,
    shape x = [b; c; h; w] /\ shape y = [b; c; ho; wo]
    /\ 1 <= h /\ 1 <= w /\ 1 <= ho /\ 1 <= wo.
Proof.
  unfold F_interpolate.
  destruct (shape x) as [|b [|c [|h [|w [|? ?]]]]]; try discriminate.
  destruct (Nat.eqb_spec h 0); [discriminate|].
  destruct (Nat.eqb_spec w 0); [discriminate|].
  destruct (Nat.eqb_spec ho 0); [discriminate|].
  destruct (Nat.eqb_spec wo 0); [discriminate|].
  cbn [orb]; intros H; injection H as <-.
  exists b, c, h, w; repeat split; try reflexivity; lia.
Qed.

(** Whatever the fused map is, a result of the depth head has one channel
    at 14 times the patch grid and is an image of the final activation. *)
Lemma DPTHead_output_Ok_inv (sd : StateDict) (n D F : nat) (bn : bool)
  (c0 c1 c2 c3 : nat) (rest : list nat) (uc md : bool) (head : DPTHead)
  (p1 out : Tensor) (ph pw : nat) :
  DPTHead_init sd n D F bn (c0 :: c1 :: c2 :: c3 :: rest) uc md = Ok head ->
  n <= 1 ->
  DPTHead_output (scratch head) p1 ph pw = Ok out ->
  exists b z,
    shape out = [b; 1; ph * 14; pw * 14]
    /\ out = map_data (final_activation md) z.
Proof.
  intros Hinit Hn Hout.
  assert (Hlt : (1 <? n) = false) by (apply Nat.ltb_ge; exact Hn).
  unfold DPTHead_init in Hinit; rewrite Hlt in Hinit; cbn in Hinit.
  injection Hinit as <-.
  unfold DPTHead_output in Hout.
  cbn [scratch output_conv1 output_conv2 call getattr bind] in Hout.
  apply bind_Ok_inv in Hout; destruct Hout as (o1 & E1 & Hout).
  apply bind_Ok_inv in Hout; destruct Hout as (o2 & E2 & Hout).
  rewrite Sequential_cons in Hout.
  apply bind_Ok_inv in Hout; destruct Hout as (o3 & E3 & Hout).
  rewrite Sequential_cons, Module_forward_ReLU in Hout; cbn [bind] in Hout.
  rewrite Sequential_cons in Hout.
  apply bind_Ok_inv in Hout; destruct Hout as (o4 & E4 & Hout).
  rewrite Sequential_cons in Hout.
  apply F_interpolate_Ok_inv in E2.
  destruct E2 as (b & c & h & w & S1 & S2 & _ & _ & Hho & Hwo).
  apply conv2d_Ok_inv in E3; destruct E3 as (b3 & h3 & w3 & S2' & S3).
  rewrite S2 in S2'; injection S2' as <- _ <- <-.
  rewrite !conv2d_out_3_1_1 in S3 by assumption.
  apply conv2d_Ok_inv in E4; destruct E4 as (b4 & h4 & w4 & S3' & S4).
  cbn [map_data shape] in S3'; rewrite S3 in S3'; injection S3' as <- <- <-.
  rewrite !conv2d_out_1_1_0 in S4 by assumption.
  exists b, o4.
  destruct md;
    [rewrite Module_forward_Sigmoid in Hout | rewrite Module_forward_ReLU in Hout];
    cbn [bind] in Hout;
    rewrite Sequential_cons, Module_forward_Identity in Hout; cbn [bind] in Hout;
    rewrite Sequential_nil in Hout; injection Hout as <-;
    (split; [exact S4 | reflexivity]).
Qed.

Lemma DPTHead_forward_Ok_inv (head : DPTHead) (feats : list Feature)
  (ph pw : nat) (out : Tensor) :
  DPTHead_forward head feats ph pw = Ok out ->
  List.length feats = 4
  /\ exists path_1, DPTHead_output (scratch head) path_1 ph pw = Ok out.
Proof.
  unfold DPTHead_forward; intros H.
  apply bind_Ok_inv in H; destruct H as (maps & Emaps & H).
  assert (Hlen : forall fs i ms, DPTHead_layers head ph pw i fs = Ok ms ->
                                 List.length ms = List.length fs).
  { induction fs as [|f fs IH]; intros i ms Hms; cbn [DPTHead_layers] in Hms.
    - injection Hms as <-; reflexivity.
    - apply bind_Ok_inv in Hms; destruct Hms as (y & _ & Hms).
      apply bind_Ok_inv in Hms; destruct Hms as (ys & Eys & Hms).
      injection Hms as <-; simpl; rewrite (IH _ _ Eys); reflexivity. }
  apply Hlen in Emaps.
  destruct maps as [|l1 [|l2 [|l3 [|l4 [|l5 maps]]]]]; try discriminate.
  split; [symmetry; exact Emaps|].
  apply bind_Ok_inv in H; destruct H as (r1 & _ & H).
  apply bind_Ok_inv in H; destruct H as (r2 & _ & H).
  apply bind_Ok_inv in H; destruct H as (r3 & _ & H).
  apply bind_Ok_inv in H; destruct H as (r4 & _ & H).
  apply bind_Ok_inv in H; destruct H as (p1 & _ & H).
  exists p1; exact H.
Qed.

(** X8: whenever [DPTHead.forward] of a head built with at most one class
    returns, on entries of any shape, it was given exactly four entries and
    its result has one channel and the spatial size
    [(14 * patch_h, 14 * patch_w)]. *)
Theorem DPTHead_forward_result_shape
  (sd : StateDict) (n D F : nat) (bn : bool) (c0 c1 c2 c3 : nat)
  (rest : list nat) (uc md : bool) (head : DPTHead)
  (feats : list Feature) (ph pw : nat) (out : Tensor) :
  DPTHead_init sd n D F bn (c0 :: c1 :: c2 :: c3 :: rest) uc md = Ok head ->
  n <= 1 ->
  DPTHead_forward head feats ph pw = Ok out ->
  List.length feats = 4
  /\ 1 <= ph /\ 1 <= pw
  /\ exists b, shape out = [b; 1; 14 * ph; 14 * pw].
Proof.
  intros Hinit Hn Hout.
  destruct (DPTHead_forward_Ok_inv _ _ _ _ _ Hout) as (Hlen & p1 & Hp1).
  destruct (DPTHead_output_Ok_inv _ _ _ _ _ _ _ _ _ _ _ _ _ _ _ _ _
              Hinit Hn Hp1) as (b & z & Sout & _).
  split; [exact Hlen|].
  assert (Hpos : 1 <= ph /\ 1 <= pw).
  { unfold DPTHead_output in Hp1.
    apply bind_Ok_inv in Hp1; destruct Hp1 as (o1 & _ & Hp1).
    apply bind_Ok_inv in Hp1; destruct Hp1 as (o2 & E2 & _).
    apply F_interpolate_Ok_inv in E2.
    destruct E2 as (? & ? & ? & ? & _ & _ & _ & _ & Hho & Hwo); lia. }
  destruct Hpos as [Hph Hpw]; repeat split; try assumption.
  exists b; rewrite Sout, (Nat.mul_comm ph), (Nat.mul_comm pw); reflexivity.
Qed.



Lemma DPT_DINOv2_forward_Ok_inv (self : DPT_DINOv2) (x out : Tensor) :
  DPT_DINOv2_forward self x = Ok out ->
  exists h w feats depth resized,
    last_two (shape x) = Ok (h, w)
    /\ get_intermediate_layers (pretrained self) x (intermediate_layer_idx self)
       = Ok feats
    /\ DPTHead_forward (depth_head self) feats (h / 14) (w / 14) = Ok depth
    /\ ((resized = depth
         /\ nth_error (shape depth) 2 = Some h
         /\ nth_error (shape depth) 3 = Some w)
        \/ F_interpolate depth [h; w] = Ok resized)
    /\ DPT_DINOv2_postprocess self resized = Ok out.
Proof.
  unfold DPT_DINOv2_forward; intros H.
  apply bind_Ok_inv in H; destruct H as ([h w] & Ehw & H).
  apply bind_Ok_inv in H; destruct H as (feats & Efeats & H).
  apply bind_Ok_inv in H; destruct H as (depth & Edepth & H).
  apply bind_Ok_inv in H; destruct H as (d2 & E2 & H).
  apply bind_Ok_inv in H; destruct H as (differs & Ediff & H).
  apply bind_Ok_inv in H; destruct H as (resized & Eres & H).
  exists h, w, feats, depth, resized.
  repeat (split; [assumption|]); split; [|exact H].
  unfold getitem in E2.
  destruct (nth_error (shape depth) 2) as [d2'|] eqn:N2; [|discriminate].
  injection E2 as ->.
  destruct (Nat.eqb_spec h d2) as [->|Hne]; cbn [negb] in Ediff.
  - apply bind_Ok_inv in Ediff; destruct Ediff as (d3 & E3 & Ediff).
    unfold getitem in E3.
    destruct (nth_error (shape depth) 3) as [d3'|] eqn:N3; [|discriminate].
    injection E3 as ->; injection Ediff as <-.
    destruct (Nat.eqb_spec w d3) as [->|Hne]; cbn [negb] in Eres.
    + injection Eres as <-; left; repeat split; reflexivity.
    + right; exact Eres.
  - injection Ediff as <-; right; exact Eres.
Qed.

(** Whenever the wrapper returns: the decoder output is an image of the
    final activation, what is post-processed is that map or its resize, and
    it has one channel and the height and width of the input. *)
Lemma DPT_DINOv2_forward_Ok_structure
  (hub : string -> string -> Backbone) (sd : StateDict) (enc : string)
  (bn uc lh md : bool) (maxd : Q) (model : DPT_DINOv2) (x out : Tensor) :
  DPT_DINOv2_init hub sd enc bn uc lh md maxd = Ok model ->
  DPT_DINOv2_forward model x = Ok out ->
  exists b h w depth z resized,
    last_two (shape x) = Ok (h, w)
    /\ depth = map_data (final_activation md) z
    /\ (resized = depth \/ F_interpolate depth [h; w] = Ok resized)
    /\ shape resized = [b; 1; h; w]
    /\ DPT_DINOv2_postprocess model resized = Ok out.
Proof.
  intros Hinit Hout.
  destruct (DPT_DINOv2_init_inv _ _ _ _ _ _ _ _ _ Hinit)
    as (_ & _ & _ & F & c0 & c1 & c2 & c3 & Hhead).
  destruct (DPT_DINOv2_forward_Ok_inv _ _ _ Hout)
    as (h & w & feats & depth & resized & Ehw & _ & Edepth & Hres & Hpost).
  destruct (DPTHead_forward_Ok_inv _ _ _ _ _ Edepth) as (_ & p1 & Hp1).
  destruct (DPTHead_output_Ok_inv _ _ _ _ _ _ _ _ _ _ _ _ _ _ _ _ _
              Hhead (le_n 1) Hp1) as (b & z & Sdepth & Hz).
  exists b, h, w, depth, z, resized.
  split; [exact Ehw|]; split; [exact Hz|].
  destruct Hres as [(-> & N2 & N3)|Hint].
  - split; [left; reflexivity|]; split; [|exact Hpost].
    rewrite Sdepth in N2, N3 |- *; cbn [nth_error] in N2, N3.
    assert (Eh : h / 14 * 14 = h) by congruence.
    assert (Ew : w / 14 * 14 = w) by congruence.
    rewrite Eh, Ew; reflexivity.
  - split; [right; exact Hint|]; split; [|exact Hpost].
    apply F_interpolate_Ok_inv in Hint.
    destruct Hint as (b' & c' & h' & w' & S1 & S2 & _).
    rewrite Sdepth in S1; injection S1 as <- <- _ _; exact S2.
Qed.

(** X11: whenever [DPT_DINOv2.forward] returns, whatever the backbone
    answered and whether or not the sizes are multiples of 14, its result
    has three axes and the height and the width of the input. *)
Theorem DPT_DINOv2_forward_result_shape
  (hub : string -> string -> Backbone) (sd : StateDict) (enc : string)
  (bn uc lh md : bool) (maxd : Q) (model : DPT_DINOv2) (x out : Tensor) :
  DPT_DINOv2_init hub sd enc bn uc lh md maxd = Ok model ->
  DPT_DINOv2_forward model x = Ok out ->
  exists b h w, last_two (shape x) = Ok (h, w) /\ shape out = [b; h; w].
Proof.
  intros Hinit Hout.
  destruct (DPT_DINOv2_forward_Ok_structure _ _ _ _ _ _ _ _ _ _ _ Hinit Hout)
    as (b & h & w & depth & z & resized & Ehw & _ & _ & Sres & Hpost).
  destruct (DPT_DINOv2_postprocess_one_channel model resized b h w Sres)
    as (out' & Eout & Sout & _).
  rewrite Eout in Hpost; injection Hpost as <-.
  exists b, h, w; split; assumption.
Qed.

(** X12: in relative mode [DPT_DINOv2.forward] never returns a negative
    entry, on any input, with any backbone and any decoder. *)
Theorem relative_output_never_negative (self : DPT_DINOv2) (x out : Tensor) :
  metric_depth self = false ->
  DPT_DINOv2_forward self x = Ok out ->
  nonnegative out.
Proof.
  intros Hmd Hout.
  destruct (DPT_DINOv2_forward_Ok_inv _ _ _ Hout)
    as (h & w & feats & depth & resized & _ & _ & _ & _ & Hpost).
  unfold DPT_DINOv2_postprocess in Hpost; rewrite Hmd in Hpost.
  unfold squeeze_1, F_relu in Hpost; cbn [map_data shape] in Hpost.
  destruct (shape resized) as [|b [|c rest]]; try discriminate.
  destruct (c =? 1); injection Hpost as <-; intros idx; cbn [data].
  - destruct idx as [|i r]; [apply Qle_refl | apply Qrelu_nonneg].
  - apply Qrelu_nonneg.
Qed.


(** X14: [DPT_DINOv2.forward] does not need sizes that are multiples of 14:
    for every height and width of at least 14 on which the backbone returns
    its four entries over the [H div 14] by [W div 14] patch grid, it
    returns a tensor of shape [(batch, H, W)]. *)
Theorem DPT_DINOv2_forward_any_size
  (hub : string -> string -> Backbone) (sd : StateDict) (enc : string)
  (bn uc lh md : bool) (maxd : Q) (model : DPT_DINOv2)
  (x : Tensor) (batch h w : nat) :
  DPT_DINOv2_init hub sd enc bn uc lh md maxd = Ok model ->
  shape x = [batch; 3; h; w] ->
  14 <= h -> 14 <= w ->
  backbone_answers model x batch h w ->
  exists out, DPT_DINOv2_forward model x = Ok out /\ shape out = [batch; h; w].
Proof.
  intros Hinit Hx Hh Hw Hbb.
  destruct (DPT_DINOv2_init_inv _ _ _ _ _ _ _ _ _ Hinit)
    as (_ & _ & _ & F & c0 & c1 & c2 & c3 & Hhead).
  assert (Hph : 1 <= h / 14) by (apply Nat.div_le_lower_bound; lia).
  assert (Hpw : 1 <= w / 14) by (apply Nat.div_le_lower_bound; lia).
  destruct (returns_inv _ _ Hbb) as (feats & Efeats & Hlen & Hok).
  destruct (DPTHead_forward_chain _ _ _ _ _ _ _ _ _ _ _ _ _ _ _ _ _
              Hhead Hlen Hok Hph Hpw)
    as (l1 & l2 & l3 & l4 & r1 & r2 & r3 & r4 & p4 & p3 & p2 & p1 & _ & _ & _ & _
        & _ & R1 & _ & _ & _ & _ & _ & _ & _ & _ & _ & _ & P1 & Hfwd).
  rewrite R1 in P1.
  destruct (returns_inv _ _ (DPTHead_output_returns _ _ _ _ _ _ _ _ _ _ _ _ _
              p1 batch (4 * (h / 14)) (4 * (w / 14)) (h / 14) (w / 14)
              Hhead (le_n 1) P1 ltac:(lia) ltac:(lia) Hph Hpw))
    as (depth & Edepth & Sdepth & _).
  assert (Hpost : forall d : Tensor, shape d = [batch; 1; h; w] ->
            returns (DPT_DINOv2_postprocess model d) (has_shape [batch; h; w])).
  { intros d Sd.
    destruct (DPT_DINOv2_postprocess_one_channel model d batch h w Sd)
      as (out & Eout & Sout & _).
    rewrite Eout; exact Sout. }
  assert (Hint : returns (bind (F_interpolate depth [h; w])
                            (DPT_DINOv2_postprocess model))
                         (has_shape [batch; h; w])).
  { eapply returns_bind;
      [apply (F_interpolate_returns depth batch 1 _ _ h w Sdepth); lia
      | exact Hpost]. }
  apply returns_inv.
  unfold DPT_DINOv2_forward; rewrite Hx; cbn [last_two rev app bind].
  rewrite Efeats; cbn [bind]; rewrite Hfwd, Edepth; cbn [bind].
  rewrite Sdepth; cbn [getitem nth_error bind].
  destruct (Nat.eqb_spec h (h / 14 * 14)) as [Eh|_]; cbn [negb bind];
    [|exact Hint].
  destruct (Nat.eqb_spec w (w / 14 * 14)) as [Ew|_]; cbn [negb bind];
    [|exact Hint].
  apply Hpost; rewrite Sdepth, <- Eh, <- Ew; reflexivity.
Qed.



Lemma DPTHead_layers_fields (h1 h2 : DPTHead) (ph pw : nat)
  (feats : list Feature) (i : nat) :
  use_clstoken h1 = use_clstoken h2 ->
  projects h1 = projects h2 ->
  resize_layers h1 = resize_layers h2 ->
  readout_projects h1 = readout_projects h2 ->
  DPTHead_layers h1 ph pw i feats = DPTHead_layers h2 ph pw i feats.
Proof.
  intros Hu Hp Hr Hq; revert i.
  induction feats as [|f feats IH]; intros i; [reflexivity|].
  cbn [DPTHead_layers]; rewrite (IH (S i)).
  unfold DPTHead_layer; rewrite Hu, Hp, Hr, Hq; reflexivity.
Qed.

(** X15: [metric_depth] changes nothing in the decoder but its last
    activation: on the same entries, the metric head and the relative head
    raise the same exception or return the sigmoid and the rectification of
    one and the same map. *)
Theorem metric_depth_changes_final_activation_only
  (sd : StateDict) (n D F : nat) (bn : bool) (ocs : list nat) (uc : bool)
  (metric_head relative_head : DPTHead)
  (feats : list Feature) (ph pw : nat) :
  n <= 1 ->
  DPTHead_init sd n D F bn ocs uc true = Ok metric_head ->
  DPTHead_init sd n D F bn ocs uc false = Ok relative_head ->
  same_preactivation sigmoid Qrelu
    (DPTHead_forward metric_head feats ph pw)
    (DPTHead_forward relative_head feats ph pw).
Proof.
  intros Hn Hm Hr.
  assert (Hlt : (1 <? n) = false) by (apply Nat.ltb_ge; exact Hn).
  unfold DPTHead_init in Hm, Hr; rewrite Hlt in Hm, Hr.
  destruct (getitem ocs 0) as [oc0|]; cbn [bind] in Hm, Hr; [|discriminate].
  destruct (getitem ocs 1) as [oc1|]; cbn [bind] in Hm, Hr; [|discriminate].
  destruct (getitem ocs 3) as [oc3|]; cbn [bind] in Hm, Hr; [|discriminate].
  destruct (_make_scratch _ ocs F 1 false) as [s|]; cbn [bind] in Hm, Hr;
    [|discriminate].
  injection Hm as <-; injection Hr as <-.
  unfold DPTHead_forward.
  match goal with
  | |- same_preactivation _ _ (bind (DPTHead_layers ?h1 _ _ _ _) _)
                              (bind (DPTHead_layers ?h2 _ _ _ _) _) =>
      rewrite (DPTHead_layers_fields h1 h2 ph pw feats 0
                 eq_refl eq_refl eq_refl eq_refl)
  end.
  match goal with
  | |- same_preactivation _ _ (bind ?r _) _ => destruct r as [maps|e]
  end; cbn [bind same_preactivation]; [|reflexivity].
  destruct maps as [|l1 [|l2 [|l3 [|l4 [|l5 maps]]]]];
    cbn [same_preactivation]; try reflexivity.
  cbn [scratch layer1_rn layer2_rn layer3_rn layer4_rn].
  repeat match goal with
  | |- same_preactivation _ _ (bind ?r _) (bind ?r _) =>
      destruct r; cbn [bind same_preactivation]; [|reflexivity]
  end.
  unfold DPTHead_fusion;
    cbn [refinenet1 refinenet2 refinenet3 refinenet4].
  match goal with
  | |- same_preactivation _ _ (bind ?r _) (bind ?r _) =>
      destruct r as [path_1|e]; cbn [bind same_preactivation]; [|reflexivity]
  end.
  unfold DPTHead_output; cbn [output_conv1 output_conv2 call getattr bind].
  repeat match goal with
  | |- same_preactivation _ _ (bind ?r _) (bind ?r _) =>
      destruct r; cbn [bind same_preactivation]; [|reflexivity]
  end.
  rewrite !Sequential_cons.
  match goal with
  | |- same_preactivation _ _ (bind ?r _) (bind ?r _) =>
      destruct r as [o3|e]; cbn [bind same_preactivation]; [|reflexivity]
  end.
  rewrite !Sequential_cons, !Module_forward_ReLU; cbn [bind].
  rewrite !Sequential_cons.
  match goal with
  | |- same_preactivation _ _ (bind ?r _) (bind ?r _) =>
      destruct r as [o4|e]; cbn [bind same_preactivation]; [|reflexivity]
  end.
  rewrite !Sequential_cons, Module_forward_Sigmoid, Module_forward_ReLU;
    cbn [bind].
  rewrite !Sequential_cons, !Module_forward_Identity; cbn [bind].
  rewrite !Sequential_nil; cbn [same_preactivation].
  exists o4; split; reflexivity.
Qed.



(** The two forward passes on valid inputs, for use on concrete inputs. *)
Lemma DPTHead_forward_returns (sd : StateDict) (n D F : nat) (bn : bool)
  (c0 c1 c2 c3 : nat) (rest : list nat) (uc md : bool) (head : DPTHead)
  (feats : list Feature) (b ph pw : nat) :
  DPTHead_init sd n D F bn (c0 :: c1 :: c2 :: c3 :: rest) uc md = Ok head ->
  n <= 1 ->
  List.length feats = 4 ->
  Forall (feature_ok b (ph * pw) D) feats ->
  1 <= ph -> 1 <= pw ->
  exists out, DPTHead_forward head feats ph pw = Ok out.
Proof.
  intros Hinit Hn Hlen Hok Hph Hpw.
  destruct (DPTHead_forward_chain _ _ _ _ _ _ _ _ _ _ _ _ _ _ _ _ _
              Hinit Hlen Hok Hph Hpw)
    as (l1 & l2 & l3 & l4 & r1 & r2 & r3 & r4 & p4 & p3 & p2 & p1 & _ & _ & _ & _
        & _ & R1 & _ & _ & _ & _ & _ & _ & _ & _ & _ & _ & P1 & Hfwd).
  rewrite R1 in P1.
  destruct (returns_inv _ _ (DPTHead_output_returns _ _ _ _ _ _ _ _ _ _ _ _ _
              p1 b (4 * ph) (4 * pw) ph pw
              Hinit Hn P1 ltac:(lia) ltac:(lia) Hph Hpw))
    as (out & Eout & _).
  exists out; rewrite Hfwd; exact Eout.
Qed.

Lemma DPT_DINOv2_forward_returns
  (hub : string -> string -> Backbone) (sd : StateDict) (enc : string)
  (bn uc lh md : bool) (maxd : Q) (model : DPT_DINOv2)
  (x : Tensor) (batch h w : nat) :
  DPT_DINOv2_init hub sd enc bn uc lh md maxd = Ok model ->
  shape x = [batch; 3; h; w] ->
  1 <= h -> 1 <= w -> h mod 14 = 0 -> w mod 14 = 0 ->
  backbone_answers model x batch h w ->
  exists out, DPT_DINOv2_forward model x = Ok out.
Proof.
  intros Hinit Hx Hh Hw Hhm Hwm Hbb.
  destruct (DPT_DINOv2_forward_valid _ _ _ _ _ _ _ _ _ _ _ _ _
              Hinit Hx Hh Hw Hhm Hwm Hbb)
    as (feats & depth & z & _ & _ & Sd & _ & Hfwd).
  destruct (DPT_DINOv2_postprocess_one_channel model depth batch h w Sd)
    as (out & Eout & _).
  exists out; rewrite Hfwd; exact Eout.
Qed.


(** X18: every projection of the head works cell by cell: when two maps
    agree on all channels of one cell of one image, so do their
    projections. *)
Theorem projection_is_per_cell
  (sd : StateDict) (m D F : nat) (bn : bool) (ocs : list nat) (uc md : bool)
  (head : DPTHead) (proj : Module) (x1 x2 y1 y2 : Tensor) (n i j : nat) :
  DPTHead_init sd m D F bn ocs uc md = Ok head ->
  In proj (projects head) ->
  shape x1 = shape x2 ->
  (forall c, data x1 [n; c; i; j] = data x2 [n; c; i; j]) ->
  Module_forward proj x1 = Ok y1 ->
  Module_forward proj x2 = Ok y2 ->
  forall c, data y1 [n; c; i; j] = data y2 [n; c; i; j].
Proof.
  intros Hinit Hin Hs Hcell H1 H2 c.
  unfold DPTHead_init in Hinit.
  destruct (getitem ocs 0); cbn [bind] in Hinit; [|discriminate].
  destruct (getitem ocs 1); cbn [bind] in Hinit; [|discriminate].
  destruct (getitem ocs 3); cbn [bind] in Hinit; [|discriminate].
  destruct (_make_scratch _ ocs F 1 false); cbn [bind] in Hinit; [|discriminate].
  injection Hinit as <-; cbn [projects] in Hin.
  destruct (projects_are_1x1 _ _ _ _ _ Hin) as (sd' & oc & ->).
  cbn [Module_forward nn_Conv2d] in H1, H2; unfold conv2d in H1, H2.
  rewrite <- Hs in H2.
  destruct (shape x1) as [|b [|c' [|h [|w [|? ?]]]]]; try discriminate.
  match type of H1 with
  | (if ?cond then _ else _) = _ => destruct cond; [discriminate|]
  end.
  injection H1 as <-; injection H2 as <-; cbn [data].
  f_equal; apply sumQ_ext; intros ci _.
  apply sumQ_ext; intros ki Hki; apply sumQ_ext; intros kj Hkj.
  replace ki with 0 by lia; replace kj with 0 by lia.
  unfold padded; rewrite !Nat.mul_1_r, !Nat.add_0_r, !Nat.sub_0_r, Hcell.
  reflexivity.
Qed.

(** X19: the two upsampling resamplers have a kernel as large as their
    stride ([k] = 4 for layer 0 and [k] = 2 for layer 1), so every input
    cell fills its own [k x k] block: the output at row [y] and column [x]
    depends on the input only through the cell [(y div k, x div k)]. *)
Theorem upsampler_is_per_block
  (sd : StateDict) (m D F : nat) (bn : bool) (c0 c1 c2 c3 : nat)
  (rest : list nat) (uc md : bool) (head : DPTHead) (l k : nat) (rl : Module)
  (x1 x2 y1 y2 : Tensor) (n y x : nat) :
  DPTHead_init sd m D F bn (c0 :: c1 :: c2 :: c3 :: rest) uc md = Ok head ->
  nth_error [4; 2] l = Some k ->
  nth_error (resize_layers head) l = Some rl ->
  shape x1 = shape x2 ->
  (forall c, data x1 [n; c; y / k; x / k] = data x2 [n; c; y / k; x / k]) ->
  Module_forward rl x1 = Ok y1 ->
  Module_forward rl x2 = Ok y2 ->
  forall c, data y1 [n; c; y; x] = data y2 [n; c; y; x].
Proof.
  intros Hinit Hk Hrl Hs Hcell H1 H2.
  unfold DPTHead_init in Hinit; cbn in Hinit; injection Hinit as <-.
  cbn [resize_layers] in Hrl.
  destruct l as [|[|l]]; [| |destruct l; discriminate];
    cbn [nth_error] in Hrl, Hk; injection Hrl as <-; injection Hk as <-;
    cbn [Module_forward nn_ConvTranspose2d] in H1, H2.
  - exact (conv_transpose2d_block c0 c0 4 _ _ x1 x2 y1 y2 n y x Hs Hcell H1 H2).
  - exact (conv_transpose2d_block c1 c1 2 _ _ x1 x2 y1 y2 n y x Hs Hcell H1 H2).
Qed.

End Further.


(** ** The further properties on concrete inputs *)

Lemma v2_encoder_shares_backbone_and_decoder_witness :
  exists m1 m2,
    DPT_DINOv2_init example_hub example_state_dict "vitb" false true true false 20
    = Ok m1
    /\ DPT_DINOv2_init example_hub example_state_dict "v2_vitb" false true true
         false 20 = Ok m2
    /\ pretrained m2 = pretrained m1
    /\ depth_head m2 = depth_head m1
    /\ metric_depth m2 = metric_depth m1
    /\ max_depth m2 = max_depth m1
    /\ intermediate_layer_idx m1 = LastLayers 4
    /\ exists idx,
         intermediate_layer_idx m2 = LayerIndices idx /\ List.length idx = 4.
Proof.
  eexists; eexists; split; [reflexivity|]; split; [reflexivity|].
  apply (v2_encoder_shares_backbone_and_decoder example_hub example_state_dict
           "vitb" false true true false 20).
  - right; left; reflexivity.
  - reflexivity.
  - reflexivity.
Defined.

Lemma DPTHead_forward_entry_count_witness :
  exists head,
    DPTHead_init example_state_dict 1 8 4 false [2; 3; 4; 5] true false = Ok head
    /\ DPTHead_forward (act := rational_activations) head
         (tl (example_features 6 8)) 2 3 = Err ValueError
    /\ DPTHead_forward (act := rational_activations) head
         (example_features 6 8 ++ example_features 6 8) 2 3 = Err IndexError.
Proof.
  eexists; split; [reflexivity|]; split.
  - apply (DPTHead_forward_entry_count (act := rational_activations)
             example_state_dict 1 8 4 false 2 3 4 5 [] true false _
             (tl (example_features 6 8)) 1 2 3);
      [reflexivity | repeat constructor | lia | lia | discriminate].
  - apply (DPTHead_forward_entry_count (act := rational_activations)
             example_state_dict 1 8 4 false 2 3 4 5 [] true false _
             (example_features 6 8 ++ example_features 6 8) 1 2 3);
      [reflexivity | repeat constructor | lia | lia | discriminate].
Defined.

Lemma DPTHead_forward_grid_mismatch_witness :
  exists head,
    DPTHead_init example_state_dict 1 8 4 false [2; 3; 4; 5] true false = Ok head
    /\ DPTHead_forward (act := rational_activations) head
         (example_features 5 8) 2 3 = Err RuntimeError.
Proof.
  eexists; split; [reflexivity|].
  apply (DPTHead_forward_grid_mismatch (act := rational_activations)
           example_state_dict 1 8 4 false 2 3 4 5 [] true false _
           _ _ 1 5 2 3);
    [reflexivity | split; reflexivity | discriminate | lia | lia].
Defined.

Lemma DPTHead_forward_ignores_class_tokens_witness :
  exists head,
    DPTHead_init example_state_dict 1 8 4 false [2; 3; 4; 5] false false = Ok head
    /\ DPTHead_forward (act := rational_activations) head (example_features 6 8) 2 3
       = DPTHead_forward (act := rational_activations) head
           (map (fun f => (fst f, constant_tensor [1; 8] 7%Q)) (example_features 6 8))
           2 3.
Proof.
  eexists; split; [reflexivity|].
  apply (DPTHead_forward_ignores_class_tokens (act := rational_activations));
    reflexivity.
Defined.

Lemma DPTHead_output_any_resolution_witness :
  exists head,
    DPTHead_init example_state_dict 1 8 4 false [2; 3; 4; 5] false true = Ok head
    /\ exists out,
         DPTHead_output (act := rational_activations) (scratch head)
           (constant_tensor [1; 4; 5; 7] 1%Q) 2 3 = Ok out
         /\ shape out = [1; 1; 14 * 2; 14 * 3].
Proof.
  eexists; split; [reflexivity|].
  apply (DPTHead_output_any_resolution (act := rational_activations)
           example_state_dict 1 8 4 false 2 3 4 5 [] false true _
           (constant_tensor [1; 4; 5; 7] 1%Q) 1 5 7 2 3);
    [reflexivity | lia | reflexivity | lia | lia | lia | lia].
Defined.

Lemma DPTHead_forward_result_shape_witness :
  exists head out,
    DPTHead_init example_state_dict 1 8 4 false [2; 3; 4; 5] true true = Ok head
    /\ DPTHead_forward (act := rational_activations) head (example_features 6 8) 2 3
       = Ok out
    /\ List.length (example_features 6 8) = 4
    /\ 1 <= 2 /\ 1 <= 3
    /\ exists b, shape out = [b; 1; 14 * 2; 14 * 3].
Proof.
  eexists.
  destruct (DPTHead_forward_returns (act := rational_activations)
              example_state_dict 1 8 4 false 2 3 4 5 [] true true _
              (example_features 6 8) 1 2 3 eq_refl ltac:(lia) eq_refl
              ltac:(repeat constructor) ltac:(lia) ltac:(lia)) as (out & Eout).
  exists out; split; [reflexivity|]; split; [exact Eout|].
  eapply (DPTHead_forward_result_shape (act := rational_activations)
            example_state_dict 1 8 4 false 2 3 4 5 [] true true);
    [reflexivity | lia | exact Eout].
Defined.

Lemma F_interpolate_same_size_witness :
  exists r,
    F_interpolate example_grid [2; 2] = Ok r
    /\ shape r = shape example_grid
    /\ forall n k i j, i < 2 -> j < 2 ->
         (data r [n; k; i; j] == data example_grid [n; k; i; j])%Q.
Proof.
  apply (F_interpolate_same_size example_grid 1 1 2 2); [reflexivity | lia | lia].
Defined.


Lemma DPT_DINOv2_forward_result_shape_witness :
  exists model out,
    DPT_DINOv2_init example_hub example_state_dict "vits" false false true true 10
    = Ok model
    /\ DPT_DINOv2_forward (act := rational_activations) model
         (example_image 1 28 14) = Ok out
    /\ exists b h w,
         last_two (shape (example_image 1 28 14)) = Ok (h, w)
         /\ shape out = [b; h; w].
Proof.
  eexists.
  destruct (DPT_DINOv2_forward_returns (act := rational_activations)
              example_hub example_state_dict "vits" false false true true 10 _
              (example_image 1 28 14) 1 28 14 eq_refl eq_refl
              ltac:(lia) ltac:(lia) eq_refl eq_refl
              ltac:(split; [reflexivity | repeat constructor])) as (out & Eout).
  exists out; split; [reflexivity|]; split; [exact Eout|].
  eapply (DPT_DINOv2_forward_result_shape (act := rational_activations)
            example_hub example_state_dict "vits" false false true true 10);
    [reflexivity | exact Eout].
Defined.

Lemma relative_output_never_negative_witness :
  exists model out,
    DPT_DINOv2_init example_hub example_state_dict "vits" false false true false 20
    = Ok model
    /\ DPT_DINOv2_forward (act := rational_activations) model
         (example_image 1 28 14) = Ok out
    /\ nonnegative out.
Proof.
  eexists.
  destruct (DPT_DINOv2_forward_returns (act := rational_activations)
              example_hub example_state_dict "vits" false false true false 20 _
              (example_image 1 28 14) 1 28 14 eq_refl eq_refl
              ltac:(lia) ltac:(lia) eq_refl eq_refl
              ltac:(split; [reflexivity | repeat constructor])) as (out & Eout).
  exists out; split; [reflexivity|]; split; [exact Eout|].
  eapply (relative_output_never_negative (act := rational_activations));
    [|exact Eout]; reflexivity.
Defined.


Lemma DPT_DINOv2_forward_any_size_witness :
  exists model,
    DPT_DINOv2_init (fun _ _ => cropping_backbone 384) example_state_dict "vits"
      false false true false 20 = Ok model
    /\ exists out,
         DPT_DINOv2_forward (act := rational_activations) model
           (example_image 2 15 30) = Ok out
         /\ shape out = [2; 15; 30].
Proof.
  eexists; split; [reflexivity|].
  apply (DPT_DINOv2_forward_any_size (act := rational_activations)
           (fun _ _ => cropping_backbone 384) example_state_dict "vits"
           false false true false 20 _ (example_image 2 15 30) 2 15 30);
    [reflexivity | reflexivity | lia | lia
    | split; [reflexivity | repeat constructor]].
Defined.

Lemma metric_depth_changes_final_activation_only_witness :
  exists metric_head relative_head,
    DPTHead_init example_state_dict 1 8 4 false [2; 3; 4; 5] true true
    = Ok metric_head
    /\ DPTHead_init example_state_dict 1 8 4 false [2; 3; 4; 5] true false
       = Ok relative_head
    /\ same_preactivation rational_sigmoid Qrelu
         (DPTHead_forward (act := rational_activations) metric_head
            (example_features 6 8) 2 3)
         (DPTHead_forward (act := rational_activations) relative_head
            (example_features 6 8) 2 3).
Proof.
  eexists; eexists; split; [reflexivity|]; split; [reflexivity|].
  apply (metric_depth_changes_final_activation_only (act := rational_activations)
           example_state_dict 1 8 4 false [2; 3; 4; 5] true);
    [lia | reflexivity | reflexivity].
Defined.

Lemma readout_concatenates_class_token_witness :
  exists k,
    (u <- unsqueeze_1 (constant_tensor [2; 8] 7) ;;
     readout <- expand_as u (constant_tensor [2; 6; 8] 1) ;;
     cat_last (constant_tensor [2; 6; 8] 1) readout) = Ok k
    /\ shape k = [2; 6; 2 * 8]
    /\ forall i p j, i < 2 -> j < 8 ->
         data k [i; p; j] = data (constant_tensor [2; 6; 8] 1) [i; p; j]
         /\ data k [i; p; 8 + j] = data (constant_tensor [2; 8] 7) [i; j].
Proof.
  apply (readout_concatenates_class_token
           (constant_tensor [2; 6; 8] 1) (constant_tensor [2; 8] 7) 2 6 8);
    reflexivity.
Defined.

Lemma tokens_fill_patch_grid_row_major_witness :
  exists y,
    (p <- permute_0_2_1 (example_tokens 3 6 8) ;; reshape p [3; 8; 2; 3]) = Ok y
    /\ shape y = [3; 8; 2; 3]
    /\ forall i c r s, i < 3 -> c < 8 -> r < 2 -> s < 3 ->
         data y [i; c; r; s] = data (example_tokens 3 6 8) [i; r * 3 + s; c].
Proof.
  apply (tokens_fill_patch_grid_row_major (example_tokens 3 6 8) 3 2 3 8).
  reflexivity.
Defined.

Lemma projection_is_per_cell_witness :
  exists head proj y1 y2,
    DPTHead_init example_state_dict 1 8 4 false [2; 3; 4; 5] false false = Ok head
    /\ In proj (projects head)
    /\ Module_forward (act := rational_activations) proj
         (constant_tensor [1; 8; 2; 3] 1) = Ok y1
    /\ Module_forward (act := rational_activations) proj
         (example_spot [1; 8; 2; 3]) = Ok y2
    /\ forall c, data y1 [0; c; 0; 0] = data y2 [0; c; 0; 0].
Proof.
  eexists; eexists; eexists; eexists.
  split; [reflexivity|].
  split; [left; reflexivity|].
  split; [reflexivity|].
  split; [reflexivity|].
  eapply (projection_is_per_cell (act := rational_activations)
            example_state_dict 1 8 4 false [2; 3; 4; 5] false false _ _
            (constant_tensor [1; 8; 2; 3] 1) (example_spot [1; 8; 2; 3]));
    [reflexivity | left; reflexivity | reflexivity | intros c; reflexivity
    | reflexivity | reflexivity].
Defined.

Lemma upsampler_is_per_block_witness :
  exists head rl y1 y2,
    DPTHead_init example_state_dict 1 8 4 false [2; 3; 4; 5] false false = Ok head
    /\ nth_error (resize_layers head) 0 = Some rl
    /\ Module_forward (act := rational_activations) rl
         (constant_tensor [1; 2; 2; 3] 1) = Ok y1
    /\ Module_forward (act := rational_activations) rl
         (example_spot [1; 2; 2; 3]) = Ok y2
    /\ forall c, data y1 [0; c; 3; 2] = data y2 [0; c; 3; 2].
Proof.
  eexists; eexists; eexists; eexists.
  split; [reflexivity|].
  split; [reflexivity|].
  split; [reflexivity|].
  split; [reflexivity|].
  eapply (upsampler_is_per_block (act := rational_activations)
            example_state_dict 1 8 4 false 2 3 4 5 [] false false _ 0 4 _
            (constant_tensor [1; 2; 2; 3] 1) (example_spot [1; 2; 2; 3]));
    [reflexivity | reflexivity | reflexivity | reflexivity
    | intros c; reflexivity | reflexivity | reflexivity].
Defined.
